(** * CosyVoice web UI: request validation, dispatch and prompt conditioning

    A shallow embedding of [CosyVoice/webui.py]: the seed generator
    [generate_seed], the prompt-audio conditioner [postprocess] and the
    streaming request handler [generate_audio].

    Modelling choices.
    - A waveform is the list of the samples of a mono tensor of shape (1, N).
      Samples are exact rationals ([Q]); rounding of float32 arithmetic is
      not modelled.
    - The Python generator [generate_audio] is a computation that threads the
      process-wide random state, records what it does in an ordered trace of
      events (messages, yielded chunks, seeding, engine calls) and either
      returns or lets an exception escape.
    - The synthesis engine, [torchaudio], [load_wav], [librosa.effects.trim]
      and [random.randint] are external to the file; they are parameters.
    - A run of the handler is the run of one request.  Where other requests
      of the process matter (the queue serves two generations at a time on
      one random state), the operations of the engine are generators that
      are pulled one segment at a time, and what the other requests do to
      the random state between two pulls is an explicit interference. *)

From Stdlib Require Import List String ZArith QArith Qabs Qminmax Bool Lia.
From Stdlib Require Import DecimalString.
Import ListNotations.

Local Open Scope string_scope.
Local Open Scope Z_scope.

(** ** Module-level constants *)

Definition waveform := list Q.

(** An element of the output stream: (sample rate, samples). *)
Definition AudioChunk := (Z * waveform)%type.

Definition inference_mode_list : list string :=
  ["Pre-trained Voice"; "3s Rapid Cloning"; "Cross-lingual Cloning";
   "Natural Language Control"].

Definition max_val : Q := 0.8%Q.

(** [prompt_sr, target_sr = 16000, 22050] *)
Definition prompt_sr : Z := 16000.
Definition target_sr : Z := 22050.

(** [np.zeros(n)] and [torch.zeros(1, n)] *)
Definition zeros (n : Z) : waveform := repeat 0%Q (Z.to_nat n).

(** [default_data = np.zeros(target_sr)] *)
Definition default_data : waveform := zeros target_sr.

(** Python's [int(x)] on a float: truncation toward zero.  It is applied to
    [target_sr * 0.2] only; the double nearest to 0.2 is slightly above 1/5
    and the rounded product is 4410.0, so truncating the exact product gives
    the same integer. *)
Definition py_int (x : Q) : Z := Z.quot (Qnum x) (Z.pos (Qden x)).

(** Python's [str(n)] on an int. *)
Definition py_str (n : Z) : string := NilZero.string_of_int (Z.to_int n).

(** [x in l] for a list of strings. *)
Fixpoint str_in (x : string) (l : list string) : bool :=
  match l with
  | [] => false
  | y :: l' => String.eqb x y || str_in x l'
  end.

(** ** The seed generator *)

(** The dict [{"__type__": "update", "value": seed}]. *)
Record gr_update := { update_type : string; update_value : Z }.

Section SeedGenerator.
(** The state of Python's global [random] generator. *)
Variable RandomState : Type.
(** [random.randint(a, b)]: draws a number and advances the generator. *)
Variable randint : Z -> Z -> RandomState -> Z * RandomState.

Definition generate_seed (st : RandomState) : gr_update * RandomState :=
  let (seed, st') := randint 1 100000000 st in
  ({| update_type := "update"; update_value := seed |}, st').

(** The values produced by [n] successive clicks on the seed button. *)
Fixpoint generate_seeds (n : nat) (st : RandomState) : list Z * RandomState :=
  match n with
  | O => ([], st)
  | S n' =>
      let (u, st') := generate_seed st in
      let (us, st'') := generate_seeds n' st' in
      (update_value u :: us, st'')
  end.
End SeedGenerator.

(** ** The audio conditioner *)

(** [speech.abs().max()] over all the samples; torch raises a RuntimeError on
    a tensor without elements, which is [None] here. *)
Fixpoint abs_max_of (x : Q) (l : waveform) : Q :=
  match l with
  | [] => Qabs x
  | y :: l' => Qmax (Qabs x) (abs_max_of y l')
  end.

Definition abs_max (speech : waveform) : option Q :=
  match speech with
  | [] => None
  | x :: l => Some (abs_max_of x l)
  end.

(** [a > b] on samples. *)
Definition Qgtb (a b : Q) : bool := negb (Qle_bool a b).

Section Postprocess.
(** [librosa.effects.trim(speech, top_db, frame_length, hop_length)],
    first component of its result. *)
Variable trim : waveform -> Z -> Z -> Z -> waveform.

Definition postprocess_with (speech : waveform) (top_db hop_length win_length : Z)
  : option waveform :=
  let speech := trim speech top_db win_length hop_length in
  match abs_max speech with
  | None => None
  | Some peak =>
      let speech :=
        if Qgtb peak max_val
        then map (fun x => (x / peak * max_val)%Q) speech
        else speech in
      Some (speech ++ zeros (py_int (inject_Z target_sr * 0.2)%Q))%list
  end.

(** [postprocess(speech)] with the defaults
    [top_db=60, hop_length=220, win_length=440]. *)
Definition postprocess (speech : waveform) : option waveform :=
  postprocess_with speech 60 220 440.
End Postprocess.

(** ** The generator monad *)

(** The engine operation a request is routed to, with its arguments. *)
Inductive inference_call :=
| CallSft (tts_text spk_id : string) (stream : bool) (speed : Q)
| CallZeroShot (tts_text prompt_text : string) (prompt_speech_16k : waveform)
    (stream : bool) (speed : Q)
| CallCrossLingual (tts_text : string) (prompt_speech_16k : waveform)
    (stream : bool) (speed : Q)
| CallInstruct (tts_text spk_id instruct_text : string) (stream : bool) (speed : Q).

(** What a run of the handler does, in order. *)
Inductive event :=
| GrWarning (msg : string)
| GrInfo (msg : string)
| LoggingInfo (msg : string)
| Yield (chunk : AudioChunk)
| SetAllRandomSeed (seed : Z)
| Inference (call : inference_call).

(** Exceptions that escape the handler. *)
Inductive exn :=
| TorchaudioInfoError   (* torchaudio.info on None or on an unreadable file *)
| LoadWavError          (* load_wav on None or on an unreadable file *)
| EmptyTensorError.     (* max() of a tensor without elements *)

Inductive result (A : Type) :=
| Returned (a : A)
| Raised (e : exn).
Arguments Returned {A} a.
Arguments Raised {A} e.

Record run (S A : Type) := MkRun {
  trace : list event;
  final : S;
  outcome : result A }.
Arguments MkRun {S A} trace final outcome.
Arguments trace {S A} r.
Arguments final {S A} r.
Arguments outcome {S A} r.

Definition Gen (S A : Type) : Type := S -> run S A.

Definition ret {S A} (a : A) : Gen S A := fun s => MkRun [] s (Returned a).

Definition bind {S A B} (m : Gen S A) (k : A -> Gen S B) : Gen S B :=
  fun s =>
    match m s with
    | MkRun t s1 (Raised e) => MkRun t s1 (Raised e)
    | MkRun t s1 (Returned a) =>
        match k a s1 with
        | MkRun t' s2 o => MkRun (t ++ t')%list s2 o
        end
    end.

Definition emit {S} (e : event) : Gen S unit := fun s => MkRun [e] s (Returned tt).

Definition raise {S A} (e : exn) : Gen S A := fun s => MkRun [] s (Raised e).

(** [if b: body] *)
Definition when {S} (b : bool) (body : Gen S unit) : Gen S unit :=
  if b then body else ret tt.

(** An [option] whose [None] stands for a raised exception. *)
Definition orRaise {S A} (e : exn) (o : option A) : Gen S A :=
  match o with
  | Some a => ret a
  | None => raise e
  end.

Declare Scope gen_scope.
Delimit Scope gen_scope with gen.
Notation "x <- m ;; k" := (bind m (fun x => k))
  (at level 61, m at next level, right associativity) : gen_scope.
Notation "m ;; k" := (bind m (fun _ => k))
  (at level 61, right associativity) : gen_scope.

(** Projections of a trace. *)
Fixpoint yields (t : list event) : list AudioChunk :=
  match t with
  | [] => []
  | Yield c :: t' => c :: yields t'
  | _ :: t' => yields t'
  end.

Fixpoint calls (t : list event) : list inference_call :=
  match t with
  | [] => []
  | Inference c :: t' => c :: calls t'
  | _ :: t' => calls t'
  end.

(** Every engine call of the trace comes right after [set_all_random_seed(seed)]. *)
Fixpoint seeded_calls (seed : Z) (t : list event) : bool :=
  match t with
  | [] => true
  | Inference _ :: _ => false
  | SetAllRandomSeed z :: t' =>
      match t' with
      | Inference _ :: t'' => Z.eqb z seed && seeded_calls seed t''
      | _ => seeded_calls seed t'
      end
  | _ :: t' => seeded_calls seed t'
  end.

(** ** The synthesis engine and the other collaborators *)

(** The object [cosyvoice]: the capability flag [cosyvoice.frontend.instruct]
    and the four synthesis operations.  An operation reads and advances the
    process-wide random state [R] and produces the finite sequence of the
    segments [i['tts_speech']] it generates. *)
Record CosyVoice (R : Type) := {
  frontend_instruct : bool;
  inference_sft : string -> string -> bool -> Q -> R -> list waveform * R;
  inference_zero_shot :
    string -> string -> waveform -> bool -> Q -> R -> list waveform * R;
  inference_cross_lingual :
    string -> waveform -> bool -> Q -> R -> list waveform * R;
  inference_instruct :
    string -> string -> string -> bool -> Q -> R -> list waveform * R }.
Arguments frontend_instruct {R} c.
Arguments inference_sft {R} c.
Arguments inference_zero_shot {R} c.
Arguments inference_cross_lingual {R} c.
Arguments inference_instruct {R} c.

(** ** The request handler *)

(** Lines 62-67: the prompt audio in effect. *)
Definition prompt_wav_of (prompt_wav_upload prompt_wav_record : option string)
  : option string :=
  match prompt_wav_upload with
  | Some _ => prompt_wav_upload
  | None =>
      match prompt_wav_record with
      | Some _ => prompt_wav_record
      | None => None
      end
  end.

Definition is_some {A} (o : option A) : bool :=
  match o with Some _ => true | None => false end.

(** [s != ''] *)
Definition nonempty (s : string) : bool := negb (String.eqb s "").

Section Webui.
(** The process-wide random state (Python, numpy and torch generators). *)
Variable R : Type.
(** The random state that seeding with [seed] leaves. *)
Variable seeded : Z -> R.
Variable cosyvoice : CosyVoice R.
(** [args.model_dir] *)
Variable model_dir : string.
(** [torchaudio.info(path).sample_rate]; [None] when it raises. *)
Variable torchaudio_info : string -> option Z.
(** [load_wav(path, sr)]; [None] when it raises. *)
Variable load_wav : string -> Z -> option waveform.
Variable trim : waveform -> Z -> Z -> Z -> waveform.

Local Open Scope gen_scope.

(** Modelled from the spec: [set_all_random_seed] of [cosyvoice.utils.common]
    is not part of the file; it is the spec's [seedRandom(seed)], which seeds
    the deterministic random source of the process: the state it leaves
    depends on the seed only. *)
Definition set_all_random_seed (seed : Z) : Gen R unit :=
  fun _ => MkRun [SetAllRandomSeed seed] (seeded seed) (Returned tt).

(** [yield (target_sr, default_data)] *)
Definition yield_default : Gen R unit := emit (Yield (target_sr, default_data)).

(** [for i in op(...): yield (target_sr, i['tts_speech'].numpy().flatten())] *)
Definition relay (call : inference_call) (op : R -> list waveform * R)
  : Gen R unit :=
  fun s =>
    let (segments, s') := op s in
    MkRun (Inference call :: map (fun i => Yield (target_sr, i)) segments)
      s' (Returned tt).

(** [torchaudio.info(prompt_wav).sample_rate]; a path that is [None] is
    rejected with an exception. *)
Definition info_sample_rate (prompt_wav : option string) : Gen R Z :=
  match prompt_wav with
  | None => raise TorchaudioInfoError
  | Some path => orRaise TorchaudioInfoError (torchaudio_info path)
  end.

(** [postprocess(load_wav(prompt_wav, prompt_sr))] *)
Definition prompt_speech_of (prompt_wav : option string) : Gen R waveform :=
  match prompt_wav with
  | None => raise LoadWavError
  | Some path =>
      speech <- orRaise LoadWavError (load_wav path prompt_sr) ;;
      orRaise EmptyTensorError (postprocess trim speech)
  end.

(** Lines 69-107: the checks. *)
Definition generate_audio_checks (mode_checkbox_group prompt_text : string)
    (prompt_wav : option string) (instruct_text : string) : Gen R unit :=
  when (str_in mode_checkbox_group ["Natural Language Control"]) (
    when (negb (frontend_instruct cosyvoice)) (
      emit (GrWarning ("You are using Natural Language Control mode. "
        ++ model_dir ++ " model does not support this mode. Please use iic/CosyVoice-300M-Instruct model")) ;;
      yield_default) ;;
    when (String.eqb instruct_text "") (
      emit (GrWarning "You are using Natural Language Control mode. Please enter instruct text") ;;
      yield_default) ;;
    when (is_some prompt_wav || nonempty prompt_text) (
      emit (GrInfo "You are using Natural Language Control mode. Prompt audio/prompt text will be ignored"))) ;;
  when (str_in mode_checkbox_group ["Cross-lingual Cloning"]) (
    when (frontend_instruct cosyvoice) (
      emit (GrWarning ("You are using Cross-lingual Cloning mode. "
        ++ model_dir ++ " model does not support this mode. Please use iic/CosyVoice-300M model")) ;;
      yield_default) ;;
    when (nonempty instruct_text) (
      emit (GrInfo "You are using Cross-lingual Cloning mode. Instruct text will be ignored")) ;;
    when (negb (is_some prompt_wav)) (
      emit (GrWarning "You are using Cross-lingual Cloning mode. Please provide prompt audio") ;;
      yield_default) ;;
    emit (GrInfo "You are using Cross-lingual Cloning mode. Please ensure synthesis text and prompt text are in different languages")) ;;
  when (str_in mode_checkbox_group ["3s Rapid Cloning"; "Cross-lingual Cloning"]) (
    when (negb (is_some prompt_wav)) (
      emit (GrWarning "Prompt audio is empty. Did you forget to input prompt audio?") ;;
      yield_default) ;;
    sample_rate <- info_sample_rate prompt_wav ;;
    when (sample_rate <? prompt_sr)%Z (
      emit (GrWarning ("Prompt audio sample rate " ++ py_str sample_rate
        ++ " is lower than " ++ py_str prompt_sr)) ;;
      yield_default)) ;;
  when (str_in mode_checkbox_group ["Pre-trained Voice"]) (
    when (nonempty instruct_text || is_some prompt_wav || nonempty prompt_text) (
      emit (GrInfo "You are using Pre-trained Voice mode. Prompt text/prompt audio/instruct text will be ignored!"))) ;;
  when (str_in mode_checkbox_group ["3s Rapid Cloning"]) (
    when (String.eqb prompt_text "") (
      emit (GrWarning "Prompt text is empty. Did you forget to input prompt text?") ;;
      yield_default) ;;
    when (nonempty instruct_text) (
      emit (GrInfo "You are using 3s Rapid Cloning mode. Pre-trained voice/instruct text will be ignored!"))).

(** Lines 109-130: the dispatch. *)
Definition generate_audio_dispatch (tts_text mode_checkbox_group sft_dropdown
    prompt_text : string) (prompt_wav : option string) (instruct_text : string)
    (seed : Z) (stream : bool) (speed : Q) : Gen R unit :=
  if String.eqb mode_checkbox_group "Pre-trained Voice" then
    emit (LoggingInfo "Received SFT inference request") ;;
    set_all_random_seed seed ;;
    relay (CallSft tts_text sft_dropdown stream speed)
      (inference_sft cosyvoice tts_text sft_dropdown stream speed)
  else if String.eqb mode_checkbox_group "3s Rapid Cloning" then
    emit (LoggingInfo "Received zero-shot inference request") ;;
    prompt_speech_16k <- prompt_speech_of prompt_wav ;;
    set_all_random_seed seed ;;
    relay (CallZeroShot tts_text prompt_text prompt_speech_16k stream speed)
      (inference_zero_shot cosyvoice tts_text prompt_text prompt_speech_16k
         stream speed)
  else if String.eqb mode_checkbox_group "Cross-lingual Cloning" then
    emit (LoggingInfo "Received cross-lingual inference request") ;;
    prompt_speech_16k <- prompt_speech_of prompt_wav ;;
    set_all_random_seed seed ;;
    relay (CallCrossLingual tts_text prompt_speech_16k stream speed)
      (inference_cross_lingual cosyvoice tts_text prompt_speech_16k stream speed)
  else
    emit (LoggingInfo "Received instruct inference request") ;;
    set_all_random_seed seed ;;
    relay (CallInstruct tts_text sft_dropdown instruct_text stream speed)
      (inference_instruct cosyvoice tts_text sft_dropdown instruct_text stream
         speed).

(** The handler once the prompt audio in effect is known (lines 69-130). *)
Definition generate_audio_from (tts_text mode_checkbox_group sft_dropdown
    prompt_text : string) (prompt_wav : option string) (instruct_text : string)
    (seed : Z) (stream : bool) (speed : Q) : Gen R unit :=
  generate_audio_checks mode_checkbox_group prompt_text prompt_wav instruct_text ;;
  generate_audio_dispatch tts_text mode_checkbox_group sft_dropdown prompt_text
    prompt_wav instruct_text seed stream speed.

Definition generate_audio (tts_text mode_checkbox_group sft_dropdown
    prompt_text : string) (prompt_wav_upload prompt_wav_record : option string)
    (instruct_text : string) (seed : Z) (stream : bool) (speed : Q)
  : Gen R unit :=
  let prompt_wav := prompt_wav_of prompt_wav_upload prompt_wav_record in
  generate_audio_from tts_text mode_checkbox_group sft_dropdown prompt_text
    prompt_wav instruct_text seed stream speed.
End Webui.

(** ** Requests served concurrently *)

(** A synthesis operation as the Python generator it is.  Asked for its next
    segment, it either stops or computes one segment from the process-wide
    random state of that moment, advances that state and goes on. *)
Inductive segment_source (R : Type) : Type :=
| Exhausted
| NextSegment (segment : R -> waveform) (advance : R -> R)
    (rest : R -> segment_source R).
Arguments Exhausted {R}.
Arguments NextSegment {R} segment advance rest.

(** The object [cosyvoice] with its four operations as generators. *)
Record CosyVoiceGenerators (R : Type) := {
  instruct_flag : bool;
  sft_source : string -> string -> bool -> Q -> segment_source R;
  zero_shot_source :
    string -> string -> waveform -> bool -> Q -> segment_source R;
  cross_lingual_source : string -> waveform -> bool -> Q -> segment_source R;
  instruct_source : string -> string -> string -> bool -> Q -> segment_source R }.
Arguments instruct_flag {R} c.
Arguments sft_source {R} c.
Arguments zero_shot_source {R} c.
Arguments cross_lingual_source {R} c.
Arguments instruct_source {R} c.

(** What the other requests of the process do to the random state while the
    handler is suspended at its [k]-th relayed chunk: [main] starts the queue
    with [default_concurrency_limit=2], so a second generation may seed and
    draw in between. *)
Definition interference (R : Type) : Type := nat -> R -> R.

(** No other request touches the random state while this one generates. *)
Definition undisturbed {R} (env : interference R) : Prop :=
  forall k s, env k s = s.

Definition alone {R} : interference R := fun _ s => s.

(** The loop [for i in op(...): yield ...] on a generator: each segment is
    computed from the state of the moment it is pulled; the handler then
    yields it and is suspended, and [env k] is what happens to the random
    state before it is resumed. *)
Fixpoint pull_all {R} (env : interference R) (k : nat) (src : segment_source R)
    (s : R) : list waveform * R :=
  match src with
  | Exhausted => ([], s)
  | NextSegment segment advance rest =>
      let (segments, s') := pull_all env (S k) (rest s) (env k (advance s)) in
      (segment s :: segments, s')
  end.

(** The engine as the handler sees it when its generators are pulled under
    the interference [env]. *)
Definition served {R} (env : interference R) (g : CosyVoiceGenerators R)
  : CosyVoice R := {|
  frontend_instruct := instruct_flag g;
  inference_sft := fun tts_text spk_id stream speed =>
    pull_all env 0 (sft_source g tts_text spk_id stream speed);
  inference_zero_shot := fun tts_text prompt_text prompt_speech_16k stream speed =>
    pull_all env 0
      (zero_shot_source g tts_text prompt_text prompt_speech_16k stream speed);
  inference_cross_lingual := fun tts_text prompt_speech_16k stream speed =>
    pull_all env 0
      (cross_lingual_source g tts_text prompt_speech_16k stream speed);
  inference_instruct := fun tts_text spk_id instruct_text stream speed =>
    pull_all env 0 (instruct_source g tts_text spk_id instruct_text stream speed)
  |}.

(** ** Computations that do not read the incoming random state *)

(** The trace and the outcome of [m] are the same from every state. *)
Definition blind {S A} (m : Gen S A) : Prop :=
  forall s s', trace (m s) = trace (m s') /\ outcome (m s) = outcome (m s').

(** Every run of [m] has a trace in [P]. *)
Definition always {S A} (P : list event -> Prop) (m : Gen S A) : Prop :=
  forall s, P (trace (m s)).

Definition quiet_event (e : event) : bool :=
  match e with
  | SetAllRandomSeed _ | Inference _ => false
  | _ => true
  end.

(** No seeding and no engine call. *)
Definition quiet (t : list event) : Prop := forallb quiet_event t = true.

(** ** The instructions shown for each mode *)

(** The line break of the instruction texts. *)
Definition nl : string := String (Ascii.ascii_of_nat 10) "".

(** A Python dict with string keys, in insertion order. *)
Definition instruct_dict : list (string * string) :=
  [("Pre-trained Voice",
    "1. Select pre-trained voice" ++ nl ++ "2. Click generate audio button");
   ("3s Rapid Cloning",
    "1. Select or record prompt audio (max 30s). File upload takes priority if both provided"
    ++ nl ++ "2. Enter prompt text" ++ nl ++ "3. Click generate audio button");
   ("Cross-lingual Cloning",
    "1. Select or record prompt audio (max 30s). File upload takes priority if both provided"
    ++ nl ++ "2. Click generate audio button");
   ("Natural Language Control",
    "1. Select pre-trained voice" ++ nl ++ "2. Enter instruct text" ++ nl
    ++ "3. Click generate audio button")].

(** [d[k]]; [None] stands for the KeyError of a missing key. *)
Fixpoint dict_get (k : string) (d : list (string * string)) : option string :=
  match d with
  | [] => None
  | (k', v) :: d' => if String.eqb k k' then Some v else dict_get k d'
  end.

Definition change_instruction (mode_checkbox_group : string) : option string :=
  dict_get mode_checkbox_group instruct_dict.

(** ** Shapes of traces *)

(** The chunk yielded when a check fails: [(target_sr, default_data)]. *)
Definition placeholder : AudioChunk := (target_sr, default_data).

(** The number of warnings shown. *)
Fixpoint warnings (t : list event) : nat :=
  match t with
  | [] => O
  | GrWarning _ :: t' => S (warnings t')
  | _ :: t' => warnings t'
  end.

(** A trace made of advisories and of warnings that are each followed at once
    by the placeholder chunk, and of nothing else. *)
Fixpoint answered (t : list event) : Prop :=
  match t with
  | [] => True
  | GrInfo _ :: t' => answered t'
  | GrWarning _ :: t' =>
      match t' with
      | Yield c :: t'' => c = placeholder /\ answered t''
      | _ => False
      end
  | _ => False
  end.

(** The computation leaves the random state as it found it. *)
Definition stateless {S A} (m : Gen S A) : Prop :=
  forall s, final (m s) = s.

(** The conditioned prompt that an engine call receives, if it takes one. *)
Definition prompt_speech_arg (call : inference_call) : option waveform :=
  match call with
  | CallZeroShot _ _ prompt_speech_16k _ _ => Some prompt_speech_16k
  | CallCrossLingual _ prompt_speech_16k _ _ => Some prompt_speech_16k
  | _ => None
  end.

Arguments default_data : simpl never.
Arguments target_sr : simpl never.
Arguments prompt_sr : simpl never.

(** ** A small deterministic instance of the collaborators

    Used to evaluate the handler on concrete requests. *)
Module Fixture.
(** The random state is a counter; seeding resets it to the seed. *)
Definition seeded (seed : Z) : Z := seed.

Definition tone (tag : string) (s : Z) : waveform :=
  [inject_Z s; inject_Z (Z.of_nat (String.length tag))].

Definition segments (tag : string) (stream : bool) (s : Z) : list waveform :=
  if stream then [tone tag s; tone tag (s + 1)] else [tone tag s].

Definition engine (instruct : bool) : CosyVoice Z := {|
  frontend_instruct := instruct;
  inference_sft := fun _ spk stream _ s => (segments spk stream s, s + 2);
  inference_zero_shot := fun _ prompt_text speech stream _ s =>
    (map (fun w => firstn 2 speech ++ w)%list (segments prompt_text stream s),
     s + 2);
  inference_cross_lingual := fun _ speech stream _ s =>
    (map (fun w => firstn 2 speech ++ w)%list (segments "" stream s), s + 2);
  inference_instruct := fun _ spk instruct_text stream _ s =>
    (segments (spk ++ instruct_text) stream s, s + 2) |}.

Definition model_dir : string := "pretrained_models/CosyVoice-300M".

Definition torchaudio_info (path : string) : option Z :=
  if String.eqb path "prompt_16k.wav" then Some 16000
  else if String.eqb path "prompt_8k.wav" then Some 8000
  else None.

Definition load_wav (path : string) (sr : Z) : option waveform :=
  if String.eqb path "prompt_16k.wav" || String.eqb path "prompt_8k.wav"
  then Some [0; 0.5; -2; 1; 0]%Q
  else None.

Fixpoint drop_zeros (w : waveform) : waveform :=
  match w with
  | [] => []
  | x :: w' => if Qeq_bool x 0 then drop_zeros w' else w
  end.

(** Strips the samples that are exactly zero at both ends. *)
Definition trim (speech : waveform) (top_db frame_length hop_length : Z)
  : waveform :=
  rev (drop_zeros (rev (drop_zeros speech))).

(** A generator that steps through the integers. *)
Definition randint (a b : Z) (st : Z) : Z * Z :=
  (a + st mod (b - a + 1), st + 7919).

Definition generate_audio instruct :=
  generate_audio Z seeded (engine instruct) model_dir torchaudio_info load_wav
    trim.
End Fixture.

(** ** The instance with its operations as generators, and a second request *)
Module Scenario.
(** The operations of [Fixture.engine] as generators. *)
Definition source (prefix : waveform) (tag : string) (stream : bool)
  : segment_source Z :=
  if stream
  then NextSegment (fun s => prefix ++ Fixture.tone tag s)%list (fun s => s + 1)
         (fun _ => NextSegment (fun s => prefix ++ Fixture.tone tag s)%list
                     (fun s => s + 1) (fun _ => Exhausted))
  else NextSegment (fun s => prefix ++ Fixture.tone tag s)%list (fun s => s + 2)
         (fun _ => Exhausted).

Definition generators (instruct : bool) : CosyVoiceGenerators Z := {|
  instruct_flag := instruct;
  sft_source := fun _ spk stream _ => source [] spk stream;
  zero_shot_source := fun _ prompt_text speech stream _ =>
    source (firstn 2 speech) prompt_text stream;
  cross_lingual_source := fun _ speech stream _ =>
    source (firstn 2 speech) "" stream;
  instruct_source := fun _ spk instruct_text stream _ =>
    source [] (spk ++ instruct_text) stream |}.

(** Another request calls [set_all_random_seed(seed)] while the handler is
    suspended at its first relayed chunk. *)
Definition other_request_seeds (seed : Z) : interference Z :=
  fun k s => if Nat.eqb k 0 then Fixture.seeded seed else s.

(** The handler on the generators, under an interference. *)
Definition generate_audio (env : interference Z) (instruct : bool) :=
  generate_audio Z Fixture.seeded (served env (generators instruct))
    Fixture.model_dir Fixture.torchaudio_info Fixture.load_wav Fixture.trim.

(** The states [0 .. n-1] of the counter, taken as equally likely. *)
Definition outcomes (n : nat) : list Z := map Z.of_nat (seq 0 n).

Definition probability (A : Z -> bool) : Q :=
  (inject_Z (Z.of_nat (List.length (filter A (outcomes (Z.to_nat 100000000)))))
   / inject_Z 100000000)%Q.
End Scenario.

(** * Properties *)

(** ** Traces *)

Lemma yields_app (t1 t2 : list event) :
  yields (t1 ++ t2) = (yields t1 ++ yields t2)%list.
Proof.
  induction t1 as [|e t1 IH]; simpl; [reflexivity|].
  destruct e; simpl; rewrite IH; reflexivity.
Qed.

Lemma calls_app (t1 t2 : list event) :
  calls (t1 ++ t2) = (calls t1 ++ calls t2)%list.
Proof.
  induction t1 as [|e t1 IH]; simpl; [reflexivity|].
  destruct e; simpl; rewrite IH; reflexivity.
Qed.

Lemma yields_relayed (sr : Z) (segments : list waveform) :
  yields (map (fun i => Yield (sr, i)) segments) = map (pair sr) segments.
Proof.
  induction segments as [|w l IH]; simpl; [reflexivity|].
  rewrite IH; reflexivity.
Qed.

Lemma calls_relayed (sr : Z) (segments : list waveform) :
  calls (map (fun i => Yield (sr, i)) segments) = [].
Proof.
  induction segments as [|w l IH]; simpl; [reflexivity|exact IH].
Qed.

Lemma seeded_calls_relayed (seed sr : Z) (segments : list waveform) :
  seeded_calls seed (map (fun i => Yield (sr, i)) segments) = true.
Proof.
  induction segments as [|w l IH]; simpl; [reflexivity|exact IH].
Qed.

(** ** Laws of the generator monad *)

Section GenLaws.
Context {S : Type}.

Lemma blind_ret {A} (a : A) : blind (@ret S A a).
Proof. intros s s'; split; reflexivity. Qed.

Lemma blind_emit (e : event) : blind (@emit S e).
Proof. intros s s'; split; reflexivity. Qed.

Lemma blind_raise {A} (e : exn) : blind (@raise S A e).
Proof. intros s s'; split; reflexivity. Qed.

Lemma blind_orRaise {A} (e : exn) (o : option A) : blind (@orRaise S A e o).
Proof. destruct o; [apply blind_ret | apply blind_raise]. Qed.

Lemma blind_bind {A B} (m : Gen S A) (k : A -> Gen S B) :
  blind m -> (forall a, blind (k a)) -> blind (bind m k).
Proof.
  intros Hm Hk s s'. unfold bind.
  destruct (Hm s s') as [Ht Ho].
  destruct (m s) as [t s1 o], (m s') as [t' s1' o']; simpl in Ht, Ho; subst.
  destruct o' as [a|e]; [|split; reflexivity].
  destruct (Hk a s1 s1') as [Ht Ho].
  destruct (k a s1), (k a s1'); simpl in *; subst; split; reflexivity.
Qed.

Lemma blind_when (b : bool) (m : Gen S unit) : blind m -> blind (when b m).
Proof. destruct b; [trivial | intros _; apply blind_ret]. Qed.

Lemma always_ret {A} (P : list event -> Prop) (a : A) :
  P [] -> always P (@ret S A a).
Proof. intros H s; exact H. Qed.

Lemma always_raise {A} (P : list event -> Prop) (e : exn) :
  P [] -> always P (@raise S A e).
Proof. intros H s; exact H. Qed.

Lemma always_orRaise {A} (P : list event -> Prop) (e : exn) (o : option A) :
  P [] -> always P (@orRaise S A e o).
Proof. destruct o; [apply always_ret | apply always_raise]. Qed.

Lemma always_emit (P : list event -> Prop) (e : event) :
  P [e] -> always P (@emit S e).
Proof. intros H s; exact H. Qed.

Lemma always_bind {A B} (P : list event -> Prop) (m : Gen S A)
    (k : A -> Gen S B) :
  (forall t1 t2, P t1 -> P t2 -> P (t1 ++ t2)%list) ->
  always P m -> (forall a, always P (k a)) -> always P (bind m k).
Proof.
  intros Happ Hm Hk s. unfold bind.
  specialize (Hm s). destruct (m s) as [t s1 [a|e]]; simpl in *; [|exact Hm].
  specialize (Hk a s1). destruct (k a s1); simpl in *. auto.
Qed.

Lemma always_when (P : list event -> Prop) (b : bool) (m : Gen S unit) :
  P [] -> always P m -> always P (when b m).
Proof. destruct b; [trivial | intros H _; apply always_ret, H]. Qed.

(** A run of [bind m k] is a run of [m], followed by a run of [k] when [m]
    returns. *)
Lemma bind_run {A B} (m : Gen S A) (k : A -> Gen S B) (s : S) :
  (exists e, outcome (m s) = Raised e /\
             trace (bind m k s) = trace (m s) /\
             outcome (bind m k s) = Raised e)
  \/ (exists a, outcome (m s) = Returned a /\
                trace (bind m k s)
                = (trace (m s) ++ trace (k a (final (m s))))%list /\
                outcome (bind m k s) = outcome (k a (final (m s)))).
Proof.
  unfold bind. destruct (m s) as [t s1 [a|e]]; simpl.
  - right. exists a. destruct (k a s1); simpl. repeat split.
  - left. exists e. repeat split.
Qed.
End GenLaws.

Lemma quiet_nil : quiet [].
Proof. reflexivity. Qed.

Lemma quiet_app (t1 t2 : list event) : quiet t1 -> quiet t2 -> quiet (t1 ++ t2).
Proof.
  unfold quiet. intros H1 H2. rewrite forallb_app, H1, H2. reflexivity.
Qed.

Lemma quiet_calls (t : list event) : quiet t -> calls t = [].
Proof.
  unfold quiet. induction t as [|e t IH]; simpl; [reflexivity|].
  intros H. apply andb_prop in H. destruct H as [He Ht].
  destruct e; simpl in He; try discriminate; auto.
Qed.

Lemma seeded_calls_quiet_app (seed : Z) (t1 t2 : list event) :
  quiet t1 -> seeded_calls seed (t1 ++ t2) = seeded_calls seed t2.
Proof.
  unfold quiet. induction t1 as [|e t1 IH]; simpl; [reflexivity|].
  intros H. apply andb_prop in H. destruct H as [He Ht].
  destruct e; simpl in He; try discriminate; auto.
Qed.

Lemma seeded_calls_quiet (seed : Z) (t : list event) :
  quiet t -> seeded_calls seed t = true.
Proof.
  intros H. rewrite <- (app_nil_r t). rewrite seeded_calls_quiet_app; auto.
Qed.

Create HintDb blind.
Create HintDb quiet.

#[global] Hint Resolve blind_ret blind_emit blind_raise blind_orRaise blind_bind
  blind_when : blind.
#[global] Hint Resolve always_ret always_raise always_orRaise always_emit
  always_when quiet_nil : quiet.

Section WebuiProperties.
Variable R : Type.
Variable seeded : Z -> R.
Variable cosyvoice : CosyVoice R.
Variable model_dir : string.
Variable torchaudio_info : string -> option Z.
Variable load_wav : string -> Z -> option waveform.
Variable trim : waveform -> Z -> Z -> Z -> waveform.

Ltac unfold_handler :=
  unfold generate_audio, generate_audio_from,
    generate_audio_checks, generate_audio_dispatch, yield_default,
    set_all_random_seed, relay, when, bind, emit, ret.

Local Abbreviation generate_audio :=
  (generate_audio R seeded cosyvoice model_dir torchaudio_info load_wav trim).
Local Abbreviation generate_audio_checks :=
  (generate_audio_checks R cosyvoice model_dir torchaudio_info).
Local Abbreviation generate_audio_from :=
  (generate_audio_from R seeded cosyvoice model_dir torchaudio_info load_wav trim).

Ltac case_run :=
  repeat (cbn;
    match goal with
    | |- context [match (if ?b then _ else _) _ with _ => _ end] =>
        destruct b eqn:?
    | |- context [let (_, _) := ?x in _] =>
        lazymatch type of x with prod _ _ => destruct x eqn:? end
    end);
  cbn.

(** C6. The prompt audio in effect is the uploaded file when there is one,
    else the recording when there is one, else none; the handler resolves
    it once, and everything after it reads the resolved value only. *)
Theorem prompt_wav_precedence :
  (forall upload prompt_wav_record,
      prompt_wav_of (Some upload) prompt_wav_record = Some upload)
  /\ (forall record, prompt_wav_of None (Some record) = Some record)
  /\ prompt_wav_of None None = None
  /\ (forall tts_text mode_checkbox_group sft_dropdown prompt_text
        prompt_wav_upload prompt_wav_record instruct_text seed stream speed,
        generate_audio tts_text mode_checkbox_group sft_dropdown prompt_text
          prompt_wav_upload prompt_wav_record instruct_text seed stream speed
        = generate_audio_from tts_text mode_checkbox_group sft_dropdown
            prompt_text (prompt_wav_of prompt_wav_upload prompt_wav_record)
            instruct_text seed stream speed).
Proof.
  repeat split.
Qed.

(** C3. In Pre-trained Voice mode the handler always seeds with the request's
    seed and calls [inference_sft] with the selected voice, whatever the
    prompt text, prompt audio and instruct text are; they only decide
    whether the advisory message is shown. *)
Theorem pretrained_voice_always_sft
    (tts_text sft_dropdown prompt_text : string)
    (prompt_wav_upload prompt_wav_record : option string)
    (instruct_text : string) (seed : Z) (stream : bool) (speed : Q) (s : R) :
  let r := generate_audio tts_text "Pre-trained Voice" sft_dropdown prompt_text
             prompt_wav_upload prompt_wav_record instruct_text seed stream
             speed s in
  let out := inference_sft cosyvoice tts_text sft_dropdown stream speed
               (seeded seed) in
  trace r =
    ((if nonempty instruct_text
         || is_some (prompt_wav_of prompt_wav_upload prompt_wav_record)
         || nonempty prompt_text
      then [GrInfo "You are using Pre-trained Voice mode. Prompt text/prompt audio/instruct text will be ignored!"]
      else [])
     ++ [LoggingInfo "Received SFT inference request";
         SetAllRandomSeed seed;
         Inference (CallSft tts_text sft_dropdown stream speed)]
     ++ map (fun i => Yield (target_sr, i)) (fst out))%list
  /\ calls (trace r) = [CallSft tts_text sft_dropdown stream speed]
  /\ outcome r = Returned tt.
Proof.
  intros r out. subst r out.
  unfold_handler. case_run.
  all: rewrite ?calls_relayed; repeat split.
Qed.

(** C9. In Natural Language Control mode every fatal condition that holds
    adds its own warning and its own placeholder chunk, and the handler
    then goes on to the dispatch: the stream starts with one placeholder
    per condition (two when the engine lacks the instruct capability and
    the instruct text is empty), followed by what [inference_instruct]
    produces. *)
Theorem instruct_fatal_conditions_accumulate
    (tts_text sft_dropdown prompt_text : string)
    (prompt_wav_upload prompt_wav_record : option string)
    (instruct_text : string) (seed : Z) (stream : bool) (speed : Q) (s : R) :
  let r := generate_audio tts_text "Natural Language Control" sft_dropdown
             prompt_text prompt_wav_upload prompt_wav_record instruct_text
             seed stream speed s in
  let out := inference_instruct cosyvoice tts_text sft_dropdown instruct_text
               stream speed (seeded seed) in
  trace r =
    ((if negb (frontend_instruct cosyvoice)
      then [GrWarning ("You are using Natural Language Control mode. "
              ++ model_dir ++ " model does not support this mode. Please use iic/CosyVoice-300M-Instruct model");
            Yield (target_sr, default_data)]
      else [])
     ++ (if String.eqb instruct_text ""
         then [GrWarning "You are using Natural Language Control mode. Please enter instruct text";
               Yield (target_sr, default_data)]
         else [])
     ++ (if is_some (prompt_wav_of prompt_wav_upload prompt_wav_record)
            || nonempty prompt_text
         then [GrInfo "You are using Natural Language Control mode. Prompt audio/prompt text will be ignored"]
         else [])
     ++ [LoggingInfo "Received instruct inference request";
         SetAllRandomSeed seed;
         Inference (CallInstruct tts_text sft_dropdown instruct_text stream speed)]
     ++ map (fun i => Yield (target_sr, i)) (fst out))%list
  /\ yields (trace r) =
       (repeat (target_sr, default_data)
          (Nat.b2n (negb (frontend_instruct cosyvoice))
           + Nat.b2n (String.eqb instruct_text ""))
        ++ map (pair target_sr) (fst out))%list
  /\ outcome r = Returned tt.
Proof.
  intros r out. subst r out.
  unfold_handler. case_run.
  all: rewrite ?yields_relayed; repeat split.
Qed.

(** C10. A mode that is none of 'Pre-trained Voice', '3s Rapid Cloning' and
    'Cross-lingual Cloning' falls into the final else branch: the handler
    returns after exactly one engine call, [inference_instruct], made right
    after seeding. *)
Theorem dispatch_defaults_to_instruct
    (tts_text mode_checkbox_group sft_dropdown prompt_text : string)
    (prompt_wav_upload prompt_wav_record : option string)
    (instruct_text : string) (seed : Z) (stream : bool) (speed : Q) (s : R) :
  mode_checkbox_group <> "Pre-trained Voice" ->
  mode_checkbox_group <> "3s Rapid Cloning" ->
  mode_checkbox_group <> "Cross-lingual Cloning" ->
  let r := generate_audio tts_text mode_checkbox_group sft_dropdown prompt_text
             prompt_wav_upload prompt_wav_record instruct_text seed stream
             speed s in
  let out := inference_instruct cosyvoice tts_text sft_dropdown instruct_text
               stream speed (seeded seed) in
  let checks := trace (generate_audio_checks mode_checkbox_group prompt_text
                         (prompt_wav_of prompt_wav_upload prompt_wav_record)
                         instruct_text s) in
  calls checks = []
  /\ trace r =
       (checks
        ++ [LoggingInfo "Received instruct inference request";
            SetAllRandomSeed seed;
            Inference (CallInstruct tts_text sft_dropdown instruct_text
                         stream speed)]
        ++ map (fun i => Yield (target_sr, i)) (fst out))%list
  /\ calls (trace r) =
       [CallInstruct tts_text sft_dropdown instruct_text stream speed]
  /\ outcome r = Returned tt.
Proof.
  intros Hsft Hzero Hcross r out checks. subst r out checks.
  apply String.eqb_neq in Hsft, Hzero, Hcross.
  unfold_handler. unfold str_in. rewrite Hsft, Hzero, Hcross.
  destruct (String.eqb mode_checkbox_group "Natural Language Control").
  all: case_run.
  all: rewrite ?calls_relayed; repeat split.
Qed.
(** C1 (behaviour of the code). With an engine that lacks the instruct
    capability, a Natural Language Control request gets the warning and the
    placeholder chunk, and the handler still seeds and calls
    [inference_instruct]: the stream goes on with the segments the engine
    produces. *)
Theorem instruct_unsupported_still_synthesizes
    (tts_text sft_dropdown prompt_text : string)
    (prompt_wav_upload prompt_wav_record : option string)
    (instruct_text : string) (seed : Z) (stream : bool) (speed : Q) (s : R) :
  frontend_instruct cosyvoice = false ->
  let r := generate_audio tts_text "Natural Language Control" sft_dropdown
             prompt_text prompt_wav_upload prompt_wav_record instruct_text
             seed stream speed s in
  let out := inference_instruct cosyvoice tts_text sft_dropdown instruct_text
               stream speed (seeded seed) in
  calls (trace r) =
    [CallInstruct tts_text sft_dropdown instruct_text stream speed]
  /\ yields (trace r) =
       ((target_sr, default_data)
        :: (if String.eqb instruct_text "" then [(target_sr, default_data)]
            else [])
        ++ map (pair target_sr) (fst out))%list
  /\ outcome r = Returned tt.
Proof.
  intros Hinstruct r out. subst r out.
  unfold_handler. rewrite Hinstruct. case_run.
  all: rewrite ?yields_relayed, ?calls_relayed; repeat split.
Qed.

(** C2 (behaviour of the code). A 3s Rapid Cloning request with an empty
    prompt text and a readable prompt audio of at least 16 kHz gets the
    warning and the placeholder chunk, and the handler still conditions the
    prompt audio, seeds and calls [inference_zero_shot] with the empty
    prompt text. *)
Theorem empty_prompt_text_still_synthesizes
    (tts_text sft_dropdown : string)
    (prompt_wav_upload prompt_wav_record : option string)
    (instruct_text : string) (seed : Z) (stream : bool) (speed : Q) (s : R)
    (path : string) (sample_rate : Z) (speech prompt_speech_16k : waveform) :
  prompt_wav_of prompt_wav_upload prompt_wav_record = Some path ->
  torchaudio_info path = Some sample_rate ->
  (prompt_sr <= sample_rate)%Z ->
  load_wav path prompt_sr = Some speech ->
  postprocess trim speech = Some prompt_speech_16k ->
  let r := generate_audio tts_text "3s Rapid Cloning" sft_dropdown ""
             prompt_wav_upload prompt_wav_record instruct_text seed stream
             speed s in
  let out := inference_zero_shot cosyvoice tts_text "" prompt_speech_16k
               stream speed (seeded seed) in
  calls (trace r) =
    [CallZeroShot tts_text "" prompt_speech_16k stream speed]
  /\ yields (trace r) =
       ((target_sr, default_data) :: map (pair target_sr) (fst out))%list
  /\ outcome r = Returned tt.
Proof.
  intros Hwav Hinfo Hrate Hload Hpost r out. subst r out.
  apply Z.ltb_ge in Hrate.
  unfold_handler. unfold info_sample_rate, prompt_speech_of, orRaise, bind, ret.
  rewrite Hwav. cbn. rewrite Hinfo. cbn. rewrite Hrate. cbn.
  rewrite Hload. cbn. rewrite Hpost. case_run.
  all: rewrite ?yields_relayed, ?calls_relayed; repeat split.
Qed.
(** *** Seeding and determinism *)

Lemma blind_seed_then {A} (seed : Z) (k : unit -> Gen R A) :
  blind (bind (set_all_random_seed R seeded seed) k).
Proof.
  intros s s'. unfold bind, set_all_random_seed. simpl.
  destruct (k tt (seeded seed)); split; reflexivity.
Qed.

Lemma blind_info_sample_rate (prompt_wav : option string) :
  blind (info_sample_rate R torchaudio_info prompt_wav).
Proof. destruct prompt_wav; simpl; auto with blind. Qed.

Lemma blind_prompt_speech_of (prompt_wav : option string) :
  blind (prompt_speech_of R load_wav trim prompt_wav).
Proof. destruct prompt_wav; simpl; auto with blind. Qed.

Hint Resolve blind_seed_then blind_info_sample_rate blind_prompt_speech_of
  : blind.

Lemma blind_checks (mode_checkbox_group prompt_text : string)
    (prompt_wav : option string) (instruct_text : string) :
  blind (generate_audio_checks
           mode_checkbox_group prompt_text prompt_wav instruct_text).
Proof.
  unfold generate_audio_checks, yield_default.
  repeat match goal with
         | |- blind (bind _ _) => apply blind_bind
         | |- blind (when _ _) => apply blind_when
         | |- forall _, _ => intro
         end;
    auto with blind.
Qed.

Lemma blind_dispatch (tts_text mode_checkbox_group sft_dropdown
    prompt_text : string) (prompt_wav : option string) (instruct_text : string)
    (seed : Z) (stream : bool) (speed : Q) :
  blind (generate_audio_dispatch R seeded cosyvoice load_wav trim tts_text
           mode_checkbox_group sft_dropdown prompt_text prompt_wav
           instruct_text seed stream speed).
Proof.
  unfold generate_audio_dispatch.
  repeat match goal with |- context [if ?b then _ else _] => destruct b end;
    repeat match goal with
           | |- blind (bind (set_all_random_seed _ _ _) _) =>
               apply blind_seed_then
           | |- blind (bind _ _) => apply blind_bind
           | |- forall _, _ => intro
           end;
    auto with blind.
Qed.

Lemma blind_generate_audio_from (tts_text mode_checkbox_group sft_dropdown
    prompt_text : string) (prompt_wav : option string) (instruct_text : string)
    (seed : Z) (stream : bool) (speed : Q) :
  blind (generate_audio_from tts_text mode_checkbox_group sft_dropdown
           prompt_text prompt_wav instruct_text seed stream speed).
Proof.
  apply blind_bind; [apply blind_checks | intros _; apply blind_dispatch].
Qed.

Lemma quiet_checks (mode_checkbox_group prompt_text : string)
    (prompt_wav : option string) (instruct_text : string) :
  always quiet (generate_audio_checks
                  mode_checkbox_group prompt_text prompt_wav instruct_text).
Proof.
  unfold generate_audio_checks, yield_default, info_sample_rate.
  repeat match goal with
         | |- always quiet (bind _ _) => apply always_bind; [exact quiet_app| |]
         | |- always quiet (when _ _) => apply always_when; [exact quiet_nil|]
         | |- always quiet (match ?o with Some _ => _ | None => _ end) =>
             destruct o
         | |- forall _, _ => intro
         end;
    auto with quiet; apply always_emit; reflexivity.
Qed.
(** The dispatch either stops on an exception before any seeding, or seeds
    and then makes one engine call whose segments it relays. *)
Lemma dispatch_shape (tts_text mode_checkbox_group sft_dropdown
    prompt_text : string) (prompt_wav : option string) (instruct_text : string)
    (seed : Z) (stream : bool) (speed : Q) (s : R) :
  let r := generate_audio_dispatch R seeded cosyvoice load_wav trim tts_text
             mode_checkbox_group sft_dropdown prompt_text prompt_wav
             instruct_text seed stream speed s in
  (exists e msg, outcome r = Raised e /\ trace r = [LoggingInfo msg])
  \/ (exists msg call segments,
         outcome r = Returned tt /\
         trace r = LoggingInfo msg :: SetAllRandomSeed seed :: Inference call
                   :: map (fun i => Yield (target_sr, i)) segments).
Proof.
  unfold generate_audio_dispatch, prompt_speech_of, set_all_random_seed,
    relay, orRaise, bind, emit, ret, raise.
  repeat match goal with |- context [if ?b then _ else _] => destruct b end;
    cbn.
  all: try (destruct prompt_wav as [path|]; cbn;
            [destruct (load_wav path prompt_sr) as [speech|]; cbn;
             [destruct (postprocess trim speech) as [conditioned|]; cbn|]|]).
  all: repeat match goal with
         | |- context [let (_, _) := ?x in _] =>
             lazymatch type of x with prod _ _ => destruct x end
         end; cbn.
  all: first [ right; do 3 eexists; split; reflexivity
             | left; do 2 eexists; split; reflexivity ].
Qed.

(** With one engine whose operations run to their end without interruption:
  requests that agree on every field but the two sources of the prompt
  audio, with the same prompt audio in effect, run alike from any two
  random states. *)
Lemma seed_determinism_one_engine
    (tts_text mode_checkbox_group sft_dropdown prompt_text : string)
    (upload1 record1 upload2 record2 : option string)
    (instruct_text : string) (seed : Z) (stream : bool) (speed : Q)
    (s1 s2 : R) :
  prompt_wav_of upload1 record1 = prompt_wav_of upload2 record2 ->
  let r1 := generate_audio tts_text mode_checkbox_group sft_dropdown
              prompt_text upload1 record1 instruct_text seed stream speed s1 in
  let r2 := generate_audio tts_text mode_checkbox_group sft_dropdown
              prompt_text upload2 record2 instruct_text seed stream speed s2 in
  trace r1 = trace r2
  /\ yields (trace r1) = yields (trace r2)
  /\ outcome r1 = outcome r2
  /\ seeded_calls seed (trace r1) = true
  /\ (outcome r1 = Returned tt -> exists call, calls (trace r1) = [call]).
Proof.
  intros Hwav r1 r2. subst r1 r2. unfold generate_audio. rewrite <- Hwav.
  set (prompt_wav := prompt_wav_of upload1 record1).
  destruct (blind_generate_audio_from tts_text mode_checkbox_group
              sft_dropdown prompt_text prompt_wav instruct_text seed stream
              speed s1 s2) as [Ht Ho].
  rewrite <- Ht, <- Ho. repeat split.
  - unfold generate_audio_from.
    pose proof (quiet_checks mode_checkbox_group prompt_text prompt_wav
                  instruct_text s1) as Hq.
    destruct (bind_run
                (generate_audio_checks
                   mode_checkbox_group prompt_text prompt_wav instruct_text)
                (fun _ => generate_audio_dispatch R seeded cosyvoice load_wav
                            trim tts_text mode_checkbox_group sft_dropdown
                            prompt_text prompt_wav instruct_text seed stream
                            speed) s1)
      as [(e & _ & Ht' & _) | (a & _ & Ht' & _)]; rewrite Ht'.
    + apply seeded_calls_quiet, Hq.
    + rewrite seeded_calls_quiet_app by exact Hq.
      destruct (dispatch_shape tts_text mode_checkbox_group sft_dropdown
                  prompt_text prompt_wav instruct_text seed stream speed
                  (final (generate_audio_checks
                            mode_checkbox_group prompt_text
                            prompt_wav instruct_text s1)))
        as [(e & msg & _ & Hd) | (msg & call & segments & _ & Hd)];
        rewrite Hd; simpl.
      * reflexivity.
      * rewrite Z.eqb_refl. apply seeded_calls_relayed.
  - unfold generate_audio_from.
    pose proof (quiet_checks mode_checkbox_group prompt_text prompt_wav
                  instruct_text s1) as Hq.
    destruct (bind_run
                (generate_audio_checks
                   mode_checkbox_group prompt_text prompt_wav instruct_text)
                (fun _ => generate_audio_dispatch R seeded cosyvoice load_wav
                            trim tts_text mode_checkbox_group sft_dropdown
                            prompt_text prompt_wav instruct_text seed stream
                            speed) s1)
      as [(e & _ & Ht' & Ho') | (a & _ & Ht' & Ho')]; rewrite Ht', Ho'.
    + discriminate.
    + rewrite calls_app, (quiet_calls _ Hq).
      destruct (dispatch_shape tts_text mode_checkbox_group sft_dropdown
                  prompt_text prompt_wav instruct_text seed stream speed
                  (final (generate_audio_checks
                            mode_checkbox_group prompt_text
                            prompt_wav instruct_text s1)))
        as [(e & msg & Hout & Hd) | (msg & call & segments & _ & Hd)].
      * rewrite Hout. discriminate.
      * intros _. exists call. rewrite Hd. simpl.
        rewrite calls_relayed. reflexivity.
Qed.
End WebuiProperties.

(** ** Seed determinism with other requests in the process *)

Lemma pull_all_undisturbed {R} (env1 env2 : interference R)
    (src : segment_source R) :
  undisturbed env1 -> undisturbed env2 ->
  forall k1 k2 s, pull_all env1 k1 src s = pull_all env2 k2 src s.
Proof.
  intros Henv1 Henv2.
  induction src as [|segment advance rest IH]; intros k1 k2 s.
  - reflexivity.
  - cbn [pull_all]. rewrite Henv1, Henv2.
    rewrite (IH s (S k1) (S k2)). reflexivity.
Qed.

Lemma undisturbed_alone {R} : undisturbed (@alone R).
Proof. intros k s. reflexivity. Qed.

Section ServedEngines.
Variable R : Type.
Variable seeded : Z -> R.
Variable model_dir : string.
Variable torchaudio_info : string -> option Z.
Variable load_wav : string -> Z -> option waveform.
Variable trim : waveform -> Z -> Z -> Z -> waveform.

(** The handler sees the engine through its flag and through what its
    operations return. *)
Lemma generate_audio_same_engine (e1 e2 : CosyVoice R) :
  frontend_instruct e1 = frontend_instruct e2 ->
  (forall tts_text spk_id stream speed s,
      inference_sft e1 tts_text spk_id stream speed s
      = inference_sft e2 tts_text spk_id stream speed s) ->
  (forall tts_text prompt_text prompt_speech_16k stream speed s,
      inference_zero_shot e1 tts_text prompt_text prompt_speech_16k stream
        speed s
      = inference_zero_shot e2 tts_text prompt_text prompt_speech_16k stream
          speed s) ->
  (forall tts_text prompt_speech_16k stream speed s,
      inference_cross_lingual e1 tts_text prompt_speech_16k stream speed s
      = inference_cross_lingual e2 tts_text prompt_speech_16k stream speed s) ->
  (forall tts_text spk_id instruct_text stream speed s,
      inference_instruct e1 tts_text spk_id instruct_text stream speed s
      = inference_instruct e2 tts_text spk_id instruct_text stream speed s) ->
  forall tts_text mode_checkbox_group sft_dropdown prompt_text
    prompt_wav_upload prompt_wav_record instruct_text seed stream speed s,
    generate_audio R seeded e1 model_dir torchaudio_info load_wav trim tts_text
      mode_checkbox_group sft_dropdown prompt_text prompt_wav_upload
      prompt_wav_record instruct_text seed stream speed s
    = generate_audio R seeded e2 model_dir torchaudio_info load_wav trim
        tts_text mode_checkbox_group sft_dropdown prompt_text
        prompt_wav_upload prompt_wav_record instruct_text seed stream speed s.
Proof.
  intros Hflag Hsft Hzero Hcross Hinstruct. intros.
  unfold generate_audio, generate_audio_from.
  set (prompt_wav := prompt_wav_of prompt_wav_upload prompt_wav_record).
  assert (Hchecks :
            generate_audio_checks R e1 model_dir torchaudio_info
              mode_checkbox_group prompt_text prompt_wav instruct_text
            = generate_audio_checks R e2 model_dir torchaudio_info
                mode_checkbox_group prompt_text prompt_wav instruct_text).
  { unfold generate_audio_checks. rewrite Hflag. reflexivity. }
  rewrite Hchecks. unfold bind.
  destruct (generate_audio_checks R e2 model_dir torchaudio_info
              mode_checkbox_group prompt_text prompt_wav instruct_text s)
    as [t s1 [[]|e]]; [|reflexivity].
  assert (Hdispatch :
            generate_audio_dispatch R seeded e1 load_wav trim tts_text
              mode_checkbox_group sft_dropdown prompt_text prompt_wav
              instruct_text seed stream speed s1
            = generate_audio_dispatch R seeded e2 load_wav trim tts_text
                mode_checkbox_group sft_dropdown prompt_text prompt_wav
                instruct_text seed stream speed s1).
  { unfold generate_audio_dispatch, set_all_random_seed, relay, bind, emit.
    repeat match goal with |- context [if ?b then _ else _] => destruct b end;
      cbn.
    all: try (destruct (prompt_speech_of R load_wav trim prompt_wav s1)
                as [t' s' [w|e]]; cbn; [|reflexivity]).
    all: rewrite ?Hsft, ?Hzero, ?Hcross, ?Hinstruct; reflexivity. }
  rewrite Hdispatch. reflexivity.
Qed.

Lemma generate_audio_undisturbed (g : CosyVoiceGenerators R)
    (env : interference R) :
  undisturbed env ->
  forall tts_text mode_checkbox_group sft_dropdown prompt_text
    prompt_wav_upload prompt_wav_record instruct_text seed stream speed s,
    generate_audio R seeded (served env g) model_dir torchaudio_info load_wav
      trim tts_text mode_checkbox_group sft_dropdown prompt_text
      prompt_wav_upload prompt_wav_record instruct_text seed stream speed s
    = generate_audio R seeded (served alone g) model_dir torchaudio_info
        load_wav trim tts_text mode_checkbox_group sft_dropdown prompt_text
        prompt_wav_upload prompt_wav_record instruct_text seed stream speed s.
Proof.
  intros Henv.
  intros.
  apply (generate_audio_same_engine (served env g) (served alone g)).
  - reflexivity.
  - intros. cbn. apply pull_all_undisturbed;
      [exact Henv | exact undisturbed_alone].
  - intros. cbn. apply pull_all_undisturbed;
      [exact Henv | exact undisturbed_alone].
  - intros. cbn. apply pull_all_undisturbed;
      [exact Henv | exact undisturbed_alone].
  - intros. cbn. apply pull_all_undisturbed;
      [exact Henv | exact undisturbed_alone].
Qed.

(** C7 (amended). The dispatcher seeds with the request's seed immediately
    before invoking the chosen synthesis operation, in every mode.  Two
    requests that agree on the synthesis text, the mode, the selected voice,
    the prompt text, the prompt audio in effect, the instruct text, the seed,
    the streaming flag and the speed produce the same events, the same chunks
    and the same outcome, whatever the random state was when each of them
    started, provided that no other request touches the process-wide random
    state while either of them generates; every engine call comes right after
    the seeding with the request's seed, and a run that returns has made
    exactly one engine call. *)
Theorem seed_determinism (g : CosyVoiceGenerators R)
    (env1 env2 : interference R)
    (tts_text mode_checkbox_group sft_dropdown prompt_text : string)
    (upload1 record1 upload2 record2 : option string)
    (instruct_text : string) (seed : Z) (stream : bool) (speed : Q)
    (s1 s2 : R) :
  prompt_wav_of upload1 record1 = prompt_wav_of upload2 record2 ->
  undisturbed env1 ->
  undisturbed env2 ->
  let r1 := generate_audio R seeded (served env1 g) model_dir torchaudio_info
              load_wav trim tts_text mode_checkbox_group sft_dropdown
              prompt_text upload1 record1 instruct_text seed stream speed s1 in
  let r2 := generate_audio R seeded (served env2 g) model_dir torchaudio_info
              load_wav trim tts_text mode_checkbox_group sft_dropdown
              prompt_text upload2 record2 instruct_text seed stream speed s2 in
  trace r1 = trace r2
  /\ yields (trace r1) = yields (trace r2)
  /\ outcome r1 = outcome r2
  /\ seeded_calls seed (trace r1) = true
  /\ (outcome r1 = Returned tt -> exists call, calls (trace r1) = [call]).
Proof.
  intros Hwav Henv1 Henv2 r1 r2. subst r1 r2.
  rewrite (generate_audio_undisturbed g env1 Henv1).
  rewrite (generate_audio_undisturbed g env2 Henv2).
  exact (seed_determinism_one_engine R seeded (served alone g) model_dir
           torchaudio_info load_wav trim tts_text mode_checkbox_group
           sft_dropdown prompt_text upload1 record1 upload2 record2
           instruct_text seed stream speed s1 s2 Hwav).
Qed.
End ServedEngines.

(** ** The audio conditioner *)

Lemma abs_max_of_nonneg (x : Q) (l : waveform) : (0 <= abs_max_of x l)%Q.
Proof.
  revert x. induction l as [|y l IH]; intros x; simpl.
  - apply Qabs_nonneg.
  - eapply Qle_trans; [apply Qabs_nonneg | apply Q.le_max_l].
Qed.

Lemma abs_max_of_ge (x : Q) (l : waveform) (y : Q) :
  In y (x :: l) -> (Qabs y <= abs_max_of x l)%Q.
Proof.
  revert x. induction l as [|z l IH]; intros x Hin.
  - destruct Hin as [<-|[]]. simpl. apply Qle_refl.
  - destruct Hin as [<-|Hin]; simpl.
    + apply Q.le_max_l.
    + eapply Qle_trans; [apply (IH z Hin) | apply Q.le_max_r].
Qed.

Lemma abs_max_of_le (x : Q) (l : waveform) (c : Q) :
  (forall y, In y (x :: l) -> (Qabs y <= c)%Q) -> (abs_max_of x l <= c)%Q.
Proof.
  revert x. induction l as [|z l IH]; intros x H; simpl.
  - apply H. left. reflexivity.
  - apply Q.max_lub.
    + apply H. left. reflexivity.
    + apply IH. intros y Hy. apply H. right. exact Hy.
Qed.

Lemma abs_max_of_attained (x : Q) (l : waveform) :
  exists y, In y (x :: l) /\ (abs_max_of x l == Qabs y)%Q.
Proof.
  revert x. induction l as [|z l IH]; intros x; simpl.
  - exists x. split; [left; reflexivity | reflexivity].
  - destruct (Q.max_spec_le (Qabs x) (abs_max_of z l)) as [[_ E]|[_ E]].
    + destruct (IH z) as (y & Hy & Ey). exists y. split.
      * right. exact Hy.
      * rewrite E. exact Ey.
    + exists x. split; [left; reflexivity | exact E].
Qed.

(** Appending zeros does not move the peak. *)
Lemma abs_max_of_app_zeros (x : Q) (l : waveform) (n : nat) :
  (abs_max_of x (l ++ repeat 0%Q n)%list == abs_max_of x l)%Q.
Proof.
  apply Qle_antisym.
  - apply abs_max_of_le. intros y Hy.
    rewrite app_comm_cons in Hy. apply in_app_or in Hy.
    destruct Hy as [Hy|Hy].
    + apply abs_max_of_ge, Hy.
    + apply repeat_spec in Hy. subst y. apply abs_max_of_nonneg.
  - apply abs_max_of_le. intros y Hy. apply abs_max_of_ge.
    rewrite app_comm_cons. apply in_or_app. left. exact Hy.
Qed.

Lemma Qabs_rescaled (y peak : Q) :
  (0 < peak)%Q -> (Qabs (y / peak * max_val) == Qabs y / peak * max_val)%Q.
Proof.
  intros Hp. unfold Qdiv.
  rewrite !Qabs_Qmult, Qabs_Qinv.
  rewrite (Qabs_pos peak) by (apply Qlt_le_weak, Hp).
  rewrite (Qabs_pos max_val) by discriminate.
  reflexivity.
Qed.

(** Rescaling by [max_val / peak] brings the peak to [max_val]. *)
Lemma abs_max_of_rescaled (x : Q) (l : waveform) :
  let peak := abs_max_of x l in
  (0 < peak)%Q ->
  (abs_max_of (x / peak * max_val)
     (map (fun y => y / peak * max_val) l) == max_val)%Q.
Proof.
  intros peak Hp.
  change (abs_max_of (x / peak * max_val)%Q
            (map (fun y => y / peak * max_val)%Q l))
    with (abs_max_of ((fun y => y / peak * max_val)%Q x)
            (map (fun y => y / peak * max_val)%Q l)).
  set (f := (fun y => y / peak * max_val)%Q).
  assert (Hone : (peak / peak * max_val == max_val)%Q).
  { unfold Qdiv. rewrite Qmult_inv_r, Qmult_1_l; [reflexivity|].
    intros E. rewrite E in Hp. discriminate. }
  apply Qle_antisym.
  - apply abs_max_of_le. intros y' Hy'.
    change (f x :: map f l) with (map f (x :: l)) in Hy'.
    apply in_map_iff in Hy'. destruct Hy' as (y & <- & Hy).
    unfold f. rewrite Qabs_rescaled by exact Hp.
    rewrite <- Hone at 2.
    apply Qmult_le_compat_r; [|discriminate].
    apply Qmult_le_compat_r; [apply abs_max_of_ge, Hy|].
    apply Qlt_le_weak, Qinv_lt_0_compat, Hp.
  - destruct (abs_max_of_attained x l) as (y & Hy & Ey). fold peak in Ey.
    apply Qle_trans with (Qabs (f y)).
    + unfold f. rewrite Qabs_rescaled by exact Hp.
      rewrite <- Ey, Hone. apply Qle_refl.
    + apply abs_max_of_ge. change (f x :: map f l) with (map f (x :: l)).
      apply in_map, Hy.
Qed.

Lemma Qgtb_true (a b : Q) : Qgtb a b = true <-> (b < a)%Q.
Proof.
  unfold Qgtb. rewrite negb_true_iff, <- not_true_iff_false, Qle_bool_iff.
  split; [apply Qnot_le_lt | apply Qlt_not_le].
Qed.

Lemma Qgtb_false (a b : Q) : Qgtb a b = false <-> (a <= b)%Q.
Proof.
  unfold Qgtb. rewrite negb_false_iff. apply Qle_bool_iff.
Qed.

(** The padding count [int(target_sr * 0.2)]. *)
Lemma pad_count : py_int (inject_Z target_sr * 0.2)%Q = 4410.
Proof. reflexivity. Qed.

Section PostprocessProperties.
Variable trim : waveform -> Z -> Z -> Z -> waveform.

(** C4. [postprocess] fails only when trimming leaves no sample; otherwise
  the peak absolute amplitude of what it returns is at most 0.8: a trimmed
  signal whose peak exceeds 0.8 is rescaled by 0.8/peak as a whole, which
  brings the peak to 0.8, and any other trimmed signal is returned with its
  amplitudes unchanged. *)
Theorem postprocess_clipping (speech : waveform) :
let trimmed := trim speech 60 440 220 in
match abs_max trimmed with
| None => trimmed = [] /\ postprocess trim speech = None
| Some peak =>
    exists out out_peak,
      postprocess trim speech = Some out
      /\ abs_max out = Some out_peak
      /\ (out_peak <= max_val)%Q
      /\ ((max_val < peak)%Q ->
          out = (map (fun x => x / peak * max_val)%Q trimmed ++ zeros 4410)%list
          /\ (out_peak == max_val)%Q)
      /\ ((peak <= max_val)%Q ->
          out = (trimmed ++ zeros 4410)%list /\ (out_peak == peak)%Q)
end.
Proof.
intros trimmed. unfold postprocess, postprocess_with. fold trimmed.
rewrite pad_count.
destruct trimmed as [|x l] eqn:Etrim; simpl abs_max; cbv iota beta.
- split; reflexivity.
- set (peak := abs_max_of x l).
  destruct (Qgtb peak max_val) eqn:Egt.
  + apply Qgtb_true in Egt.
    assert (Hp : (0 < peak)%Q).
    { eapply Qlt_trans; [|exact Egt]. reflexivity. }
    pose proof (abs_max_of_rescaled x l Hp) as Hmax. fold peak in Hmax.
    eexists. eexists. split; [reflexivity|]. simpl map. simpl app.
    split; [reflexivity|]. unfold zeros.
    rewrite abs_max_of_app_zeros, Hmax.
    split; [apply Qle_refl|]. split.
    * intros _. split; reflexivity.
    * intros Hle. exfalso. exact (Qlt_not_le _ _ Egt Hle).
  + apply Qgtb_false in Egt.
    eexists. eexists. split; [reflexivity|]. simpl app.
    split; [reflexivity|]. unfold zeros.
    rewrite abs_max_of_app_zeros. fold peak.
    split; [exact Egt|]. split.
    * intros Hlt. exfalso. exact (Qlt_not_le _ _ Hlt Egt).
    * intros _. split; reflexivity.
Qed.

(** C5. What [postprocess] returns is the trimmed (and possibly rescaled)
  signal followed by exactly int(0.2 * 22050) = 4410 zeros: its length is
  the trimmed length plus 4410.  The count comes from the output rate
  [target_sr], not from the 16 kHz rate of the prompt. *)
Theorem postprocess_padding (speech : waveform) :
let trimmed := trim speech 60 440 220 in
py_int (inject_Z target_sr * 0.2)%Q = 4410
/\ target_sr = 22050 /\ prompt_sr = 16000
/\ match postprocess trim speech with
   | None => trimmed = []
   | Some out =>
       exists scaled,
         out = (scaled ++ zeros 4410)%list
         /\ List.length scaled = List.length trimmed
         /\ Z.of_nat (List.length out) = Z.of_nat (List.length trimmed) + 4410
   end.
Proof.
intros trimmed. repeat split.
unfold postprocess, postprocess_with. fold trimmed. rewrite pad_count.
destruct trimmed as [|x l]; simpl abs_max; cbv iota beta; [reflexivity|].
eexists. split; [reflexivity|].
assert (Hlen : forall scaled : waveform,
           Z.of_nat (List.length (scaled ++ zeros 4410)%list)
           = Z.of_nat (List.length scaled) + 4410).
{ intros scaled. unfold zeros.
  rewrite length_app, repeat_length, Nat2Z.inj_add, Z2Nat.id; lia. }
split.
- destruct (Qgtb (abs_max_of x l) max_val); [apply length_map | reflexivity].
- rewrite Hlen. f_equal. f_equal.
  destruct (Qgtb (abs_max_of x l) max_val); [apply length_map | reflexivity].
Qed.
End PostprocessProperties.

(** ** The seed generator *)

Section SeedProperties.
Variable RandomState : Type.
Variable randint : Z -> Z -> RandomState -> Z * RandomState.
(** The probability that the state of the generator, at the moment of a
    call, satisfies an event. *)
Variable Pr : (RandomState -> bool) -> Q.
(** The contract of [random.randint(a, b)]: an integer N with a <= N <= b. *)
Hypothesis randint_range :
forall a b st, a <= b -> a <= fst (randint a b st) <= b.
(** A probability depends on the event only. *)
Hypothesis Pr_ext :
  forall A B : RandomState -> bool, (forall st, A st = B st) -> (Pr A == Pr B)%Q.
(** The contract of [random.randint(1, 100000000)], continued: each of the
    100000000 integers of the interval is drawn with the same probability. *)
Hypothesis randint_uniform :
  forall v, 1 <= v <= 100000000 ->
    (Pr (fun st => Z.eqb (fst (randint 1 100000000 st)) v) == 1 # 100000000)%Q.

(** The state of the generator after [k] calls of [generate_seed]. *)
Let after_calls (k : nat) (st : RandomState) : RandomState :=
  Nat.iter k (fun st' => snd (randint 1 100000000 st')) st.

Lemma generate_seed_draw (st : RandomState) :
  generate_seed RandomState randint st
  = ({| update_type := "update";
        update_value := fst (randint 1 100000000 st) |},
     snd (randint 1 100000000 st)).
Proof.
  unfold generate_seed. destruct (randint 1 100000000 st); reflexivity.
Qed.

Lemma generate_seeds_draws (n : nat) (st : RandomState) :
  fst (generate_seeds RandomState randint n st)
  = map (fun k => fst (randint 1 100000000 (after_calls k st))) (seq 0 n).
Proof.
  revert st. induction n as [|n IH]; intros st; [reflexivity|].
  cbn [generate_seeds]. rewrite generate_seed_draw.
  specialize (IH (snd (randint 1 100000000 st))).
  destruct (generate_seeds RandomState randint n
              (snd (randint 1 100000000 st))) as [us st''].
  cbn [fst update_value] in *. rewrite IH.
  cbn [seq map]. f_equal.
  rewrite <- seq_shift, map_map. apply map_ext. intros k.
  unfold after_calls. rewrite Nat.iter_succ_r. reflexivity.
Qed.

End SeedProperties.

(** ** The properties on concrete requests *)

Lemma instruct_unsupported_still_synthesizes_witness :
  frontend_instruct (Fixture.engine false) = false
  /\ let r := Fixture.generate_audio false "hello" "Natural Language Control"
                "spk" "" None None "softly" 42 false 1%Q 0 in
     calls (trace r) = [CallInstruct "hello" "spk" "softly" false 1%Q]
     /\ yields (trace r) =
          [(target_sr, default_data); (target_sr, Fixture.tone "spksoftly" 42)]
     /\ outcome r = Returned tt.
Proof.
  split; [reflexivity|].
  exact (instruct_unsupported_still_synthesizes Z Fixture.seeded
           (Fixture.engine false) Fixture.model_dir Fixture.torchaudio_info
           Fixture.load_wav Fixture.trim "hello" "spk" "" None None "softly" 42
           false 1%Q 0 eq_refl).
Defined.

Lemma empty_prompt_text_still_synthesizes_witness :
  exists prompt_speech_16k,
    Fixture.torchaudio_info "prompt_16k.wav" = Some 16000
    /\ Fixture.load_wav "prompt_16k.wav" prompt_sr = Some [0; 0.5; -2; 1; 0]%Q
    /\ postprocess Fixture.trim [0; 0.5; -2; 1; 0]%Q = Some prompt_speech_16k
    /\ let r := Fixture.generate_audio false "hello" "3s Rapid Cloning" "spk" ""
                  (Some "prompt_16k.wav") None "" 42 false 1%Q 0 in
       calls (trace r) = [CallZeroShot "hello" "" prompt_speech_16k false 1%Q]
       /\ yields (trace r) =
            ((target_sr, default_data)
             :: map (pair target_sr)
                  (fst (inference_zero_shot (Fixture.engine false) "hello" ""
                          prompt_speech_16k false 1%Q (Fixture.seeded 42))))%list
       /\ outcome r = Returned tt.
Proof.
  eexists. split; [reflexivity|]. split; [reflexivity|].
  split; [reflexivity|].
  apply (empty_prompt_text_still_synthesizes Z Fixture.seeded
           (Fixture.engine false) Fixture.model_dir Fixture.torchaudio_info
           Fixture.load_wav Fixture.trim "hello" "spk" (Some "prompt_16k.wav")
           None "" 42 false 1%Q 0 "prompt_16k.wav" 16000 [0; 0.5; -2; 1; 0]%Q).
  - reflexivity.
  - reflexivity.
  - discriminate.
  - reflexivity.
  - reflexivity.
Defined.

Lemma dispatch_defaults_to_instruct_witness :
  "Voice Conversion" <> "Pre-trained Voice"
  /\ "Voice Conversion" <> "3s Rapid Cloning"
  /\ "Voice Conversion" <> "Cross-lingual Cloning"
  /\ let r := Fixture.generate_audio false "hello" "Voice Conversion" "spk" ""
                None None "calm" 7 false 1%Q 0 in
     calls (trace r) = [CallInstruct "hello" "spk" "calm" false 1%Q]
     /\ outcome r = Returned tt.
Proof.
  split; [discriminate|]. split; [discriminate|]. split; [discriminate|].
  apply (dispatch_defaults_to_instruct Z Fixture.seeded (Fixture.engine false)
           Fixture.model_dir Fixture.torchaudio_info Fixture.load_wav
           Fixture.trim "hello" "Voice Conversion" "spk" "" None None "calm" 7
           false 1%Q 0); discriminate.
Defined.

Lemma seed_determinism_witness :
  prompt_wav_of (Some "prompt_16k.wav") (Some "take2.wav")
  = prompt_wav_of (Some "prompt_16k.wav") None
  /\ undisturbed (@alone Z)
  /\ let r1 := Scenario.generate_audio alone false "hello"
                 "Cross-lingual Cloning" "spk" "" (Some "prompt_16k.wav")
                 (Some "take2.wav") "" 42 true 1%Q 0 in
     let r2 := Scenario.generate_audio alone false "hello"
                 "Cross-lingual Cloning" "spk" "" (Some "prompt_16k.wav") None
                 "" 42 true 1%Q 99 in
     trace r1 = trace r2
     /\ yields (trace r1) = yields (trace r2)
     /\ outcome r1 = outcome r2
     /\ seeded_calls 42 (trace r1) = true
     /\ (outcome r1 = Returned tt -> exists call, calls (trace r1) = [call]).
Proof.
  split; [reflexivity|]. split; [intros k s; reflexivity|].
  exact (seed_determinism Z Fixture.seeded Fixture.model_dir
           Fixture.torchaudio_info Fixture.load_wav Fixture.trim
           (Scenario.generators false) alone alone
           "hello" "Cross-lingual Cloning" "spk" ""
           (Some "prompt_16k.wav") (Some "take2.wav") (Some "prompt_16k.wav")
           None "" 42 true 1%Q 0 99 eq_refl
           (fun _ _ => eq_refl) (fun _ _ => eq_refl)).
Defined.

(** Two Pre-trained Voice requests that agree on the mode, the synthesis
    text, the prompt audio, the prompt text, the instruct text, the speed and
    the seed and differ in the selected voice produce different chunks. *)
Lemma selected_voice_changes_output :
  yields (trace (Fixture.generate_audio false "hello" "Pre-trained Voice"
                   "alice" "" None None "" 42 false 1%Q 0))
  <> yields (trace (Fixture.generate_audio false "hello" "Pre-trained Voice"
                      "bob" "" None None "" 42 false 1%Q 0)).
Proof.
  vm_compute. discriminate.
Qed.

(** Served alone, the generators of the scenario are the engine of the
    fixture. *)
Lemma scenario_alone_is_fixture (instruct : bool)
    (tts_text mode_checkbox_group sft_dropdown prompt_text : string)
    (prompt_wav_upload prompt_wav_record : option string)
    (instruct_text : string) (seed : Z) (stream : bool) (speed : Q) (s : Z) :
  Scenario.generate_audio alone instruct tts_text mode_checkbox_group
    sft_dropdown prompt_text prompt_wav_upload prompt_wav_record instruct_text
    seed stream speed s
  = Fixture.generate_audio instruct tts_text mode_checkbox_group sft_dropdown
      prompt_text prompt_wav_upload prompt_wav_record instruct_text seed
      stream speed s.
Proof.
  unfold Scenario.generate_audio, Fixture.generate_audio.
  apply generate_audio_same_engine.
  - reflexivity.
  - intros ? ? st ? ?. destruct st; cbn; unfold Fixture.segments, alone; cbn;
      (reflexivity || (f_equal; lia)).
  - intros ? ? ? st ? ?. destruct st; cbn; unfold Fixture.segments, alone; cbn;
      (reflexivity || (f_equal; lia)).
  - intros ? ? st ? ?. destruct st; cbn; unfold Fixture.segments, alone; cbn;
      (reflexivity || (f_equal; lia)).
  - intros ? ? ? st ? ?. destruct st; cbn; unfold Fixture.segments, alone; cbn;
      (reflexivity || (f_equal; lia)).
Qed.

(** C7, as stated. Agreement on the seven listed fields, and even on every
    field, does not fix the output.  First, the list leaves out the selected
    voice (and the streaming flag), which the dispatch passes to the engine:
    two Pre-trained Voice requests that differ in the voice only produce
    different chunks.  Second, the queue serves two generations at a time on
    one process-wide random state: the same streaming request, run once alone
    and once while another request calls [set_all_random_seed(7)] between its
    first and its second chunk, produces different chunks. *)
Lemma seed_alone_does_not_fix_output :
  yields (trace (Fixture.generate_audio false "hello" "Pre-trained Voice"
                   "alice" "" None None "" 42 false 1%Q 0))
  <> yields (trace (Fixture.generate_audio false "hello" "Pre-trained Voice"
                      "bob" "" None None "" 42 false 1%Q 0))
  /\ yields (trace (Scenario.generate_audio alone false "hello"
                      "Pre-trained Voice" "alice" "" None None "" 42 true 1%Q 0))
     <> yields (trace (Scenario.generate_audio (Scenario.other_request_seeds 7)
                         false "hello" "Pre-trained Voice" "alice" "" None None
                         "" 42 true 1%Q 0)).
Proof.
  split; [exact selected_voice_changes_output|].
  vm_compute. discriminate.
Qed.

Lemma fixture_randint_range (a b st : Z) :
  a <= b -> a <= fst (Fixture.randint a b st) <= b.
Proof.
  intros Hab. unfold Fixture.randint. simpl.
  pose proof (Z.mod_pos_bound st (b - a + 1) ltac:(lia)). lia.
Defined.

Lemma outcomes_succ (n : nat) :
  Scenario.outcomes (S n) = (Scenario.outcomes n ++ [Z.of_nat n])%list.
Proof.
  unfold Scenario.outcomes. rewrite seq_S, map_app. reflexivity.
Defined.

Lemma outcomes_bounds (n : nat) (st : Z) :
  In st (Scenario.outcomes n) -> 0 <= st < Z.of_nat n.
Proof.
  unfold Scenario.outcomes. intros H. apply in_map_iff in H.
  destruct H as (k & <- & Hk). apply in_seq in Hk. lia.
Defined.

Lemma count_outside (n : nat) (c : Z) :
  Z.of_nat n <= c ->
  List.length (filter (fun st => Z.eqb st c) (Scenario.outcomes n)) = 0%nat.
Proof.
  induction n as [|n IH]; intros Hc; [reflexivity|].
  rewrite outcomes_succ, filter_app, length_app, IH by lia.
  cbn [filter]. destruct (Z.eqb_spec (Z.of_nat n) c); [lia | reflexivity].
Defined.

Lemma count_inside (n : nat) (c : Z) :
  0 <= c < Z.of_nat n ->
  List.length (filter (fun st => Z.eqb st c) (Scenario.outcomes n)) = 1%nat.
Proof.
  induction n as [|n IH]; intros Hc; [lia|].
  rewrite outcomes_succ, filter_app, length_app. cbn [filter].
  destruct (Z.eqb_spec (Z.of_nat n) c) as [E|E].
  - rewrite count_outside by lia. reflexivity.
  - rewrite IH by lia. reflexivity.
Defined.

Lemma scenario_probability_ext (A B : Z -> bool) :
  (forall st, A st = B st) ->
  (Scenario.probability A == Scenario.probability B)%Q.
Proof.
  intros H. unfold Scenario.probability.
  rewrite (filter_ext A B H). reflexivity.
Defined.

Lemma scenario_randint_uniform (v : Z) :
  1 <= v <= 100000000 ->
  (Scenario.probability
     (fun st => Z.eqb (fst (Fixture.randint 1 100000000 st)) v)
   == 1 # 100000000)%Q.
Proof.
  intros Hv. unfold Scenario.probability.
  rewrite (filter_ext_in
             (fun st => Z.eqb (fst (Fixture.randint 1 100000000 st)) v)
             (fun st => Z.eqb st (v - 1))).
  - rewrite count_inside by (rewrite Z2Nat.id; lia). reflexivity.
  - intros st Hst. apply outcomes_bounds in Hst.
    rewrite Z2Nat.id in Hst by lia.
    unfold Fixture.randint, fst.
    change (100000000 - 1 + 1) with 100000000.
    rewrite Z.mod_small by lia.
    destruct (Z.eqb_spec (1 + st) v), (Z.eqb_spec st (v - 1)); lia || reflexivity.
Defined.


(** The placeholder chunk is one second of zeros at the output rate. *)
Lemma default_chunk :
  (target_sr, default_data) = (22050, repeat 0%Q (Z.to_nat 22050))
  /\ Z.of_nat (List.length default_data) = 22050.
Proof.
  split; [reflexivity|].
  unfold default_data, zeros. rewrite repeat_length. reflexivity.
Qed.

(** A Cross-lingual Cloning request without prompt audio, on an engine with
    the instruct capability: three placeholders, then [torchaudio.info]
    raises on the missing path. *)
Example cross_lingual_without_prompt :
  let r := Fixture.generate_audio true "hello" "Cross-lingual Cloning" "spk" ""
             None None "" 42 false 1%Q 0 in
  yields (trace r) =
    [(target_sr, default_data); (target_sr, default_data);
     (target_sr, default_data)]
  /\ calls (trace r) = []
  /\ outcome r = Raised TorchaudioInfoError.
Proof. repeat split. Qed.

(** A Natural Language Control request with an empty instruct text on an
    engine without the instruct capability: two placeholders, then the
    segment of [inference_instruct]. *)
Example instruct_two_placeholders :
  let r := Fixture.generate_audio false "hello" "Natural Language Control" "spk"
             "" None None "" 42 false 1%Q 0 in
  yields (trace r) =
    [(target_sr, default_data); (target_sr, default_data);
     (target_sr, Fixture.tone "spk" 42)]
  /\ calls (trace r) = [CallInstruct "hello" "spk" "" false 1%Q]
  /\ outcome r = Returned tt.
Proof. repeat split. Qed.

(** The conditioner on a clip that peaks at 2: the zeros at both ends are
    trimmed, the rest is rescaled to peak at 0.8 and 4410 zeros follow. *)
Example postprocess_rescales :
  postprocess Fixture.trim [0; 0.5; -2; 1; 0]%Q
  = Some ([0.5 / 2 * 0.8; -2 / 2 * 0.8; 1 / 2 * 0.8]%Q ++ zeros 4410)%list.
Proof. reflexivity. Qed.

(** * Further properties of the file *)

(** ** The instruction texts *)

Lemma dict_get_keys (k : string) (d : list (string * string)) :
  (exists v, dict_get k d = Some v) <-> In k (map fst d).
Proof.
  induction d as [|[k' v] d IH]; simpl.
  - split; [intros [v H]; discriminate | intros []].
  - destruct (String.eqb_spec k k') as [->|Hne].
    + split; [intros _; left; reflexivity | intros _; exists v; reflexivity].
    + rewrite IH. split; [intros H; right; exact H|].
      intros [H|H]; [congruence | exact H].
Qed.

(** X1. [change_instruction] finds an instruction text exactly for the four
    modes of [inference_mode_list], the choices of the mode selector; any
    other key is a KeyError. *)
Theorem change_instruction_defined_on_modes (mode_checkbox_group : string) :
  (exists text, change_instruction mode_checkbox_group = Some text)
  <-> In mode_checkbox_group inference_mode_list.
Proof.
  unfold change_instruction. rewrite dict_get_keys. reflexivity.
Qed.

(** ** The cloning modes *)

Section CloningModes.
Variable R : Type.
Variable seeded : Z -> R.
Variable cosyvoice : CosyVoice R.
Variable model_dir : string.
Variable torchaudio_info : string -> option Z.
Variable load_wav : string -> Z -> option waveform.
Variable trim : waveform -> Z -> Z -> Z -> waveform.

Ltac unfold_handler :=
  unfold generate_audio, generate_audio_from,
    generate_audio_checks, generate_audio_dispatch, yield_default,
    info_sample_rate, prompt_speech_of, orRaise,
    set_all_random_seed, relay, when, bind, emit, ret, raise.

Ltac case_run :=
  repeat (cbn;
    match goal with
    | |- context [match (if ?b then _ else _) _ with _ => _ end] =>
        destruct b eqn:?
    | |- context [let (_, _) := ?x in _] =>
        lazymatch type of x with prod _ _ => destruct x eqn:? end
    end);
  cbn.

Local Abbreviation generate_audio :=
  (generate_audio R seeded cosyvoice model_dir torchaudio_info load_wav trim).

(** X2. A 3s Rapid Cloning request whose prompt audio is readable: a warning
    and a placeholder for a sample rate below 16 kHz, a warning and a
    placeholder for an empty prompt text, the advisory for a non-empty
    instruct text, and then, in every case, the seeding and one call of
    [inference_zero_shot] on the conditioned prompt, whose segments are
    relayed at the output rate. *)
Theorem rapid_cloning_trace
    (tts_text sft_dropdown prompt_text path : string)
    (prompt_wav_record : option string)
    (instruct_text : string) (seed : Z) (stream : bool) (speed : Q) (s : R)
    (sample_rate : Z) (speech prompt_speech_16k : waveform) :
  torchaudio_info path = Some sample_rate ->
  load_wav path prompt_sr = Some speech ->
  postprocess trim speech = Some prompt_speech_16k ->
  let r := generate_audio tts_text "3s Rapid Cloning" sft_dropdown prompt_text
             (Some path) prompt_wav_record instruct_text seed stream speed s in
  let out := inference_zero_shot cosyvoice tts_text prompt_text
               prompt_speech_16k stream speed (seeded seed) in
  trace r =
    ((if sample_rate <? prompt_sr
      then [GrWarning ("Prompt audio sample rate " ++ py_str sample_rate
                       ++ " is lower than " ++ py_str prompt_sr);
            Yield placeholder]
      else [])
     ++ (if String.eqb prompt_text ""
         then [GrWarning "Prompt text is empty. Did you forget to input prompt text?";
               Yield placeholder]
         else [])
     ++ (if nonempty instruct_text
         then [GrInfo "You are using 3s Rapid Cloning mode. Pre-trained voice/instruct text will be ignored!"]
         else [])
     ++ [LoggingInfo "Received zero-shot inference request";
         SetAllRandomSeed seed;
         Inference (CallZeroShot tts_text prompt_text prompt_speech_16k stream
                      speed)]
     ++ map (fun i => Yield (target_sr, i)) (fst out))%list
  /\ outcome r = Returned tt
  /\ final r = snd out.
Proof.
  intros Hinfo Hload Hpost r out. subst r out. unfold placeholder.
  unfold_handler. cbn. rewrite Hinfo. cbn.
  destruct (sample_rate <? prompt_sr); cbn.
  all: destruct (String.eqb prompt_text ""); cbn.
  all: destruct (nonempty instruct_text); cbn.
  all: rewrite Hload; cbn; rewrite Hpost; case_run.
  all: repeat split.
Qed.

(** X3. A Cross-lingual Cloning request whose prompt audio is readable: a
    warning and a placeholder when the engine has the instruct capability,
    the advisory for a non-empty instruct text, the reminder about languages,
    a warning and a placeholder for a sample rate below 16 kHz, and then, in
    every case, the seeding and one call of [inference_cross_lingual] on the
    conditioned prompt. *)
Theorem cross_lingual_trace
    (tts_text sft_dropdown prompt_text path : string)
    (prompt_wav_record : option string)
    (instruct_text : string) (seed : Z) (stream : bool) (speed : Q) (s : R)
    (sample_rate : Z) (speech prompt_speech_16k : waveform) :
  torchaudio_info path = Some sample_rate ->
  load_wav path prompt_sr = Some speech ->
  postprocess trim speech = Some prompt_speech_16k ->
  let r := generate_audio tts_text "Cross-lingual Cloning" sft_dropdown
             prompt_text (Some path) prompt_wav_record instruct_text seed
             stream speed s in
  let out := inference_cross_lingual cosyvoice tts_text prompt_speech_16k
               stream speed (seeded seed) in
  trace r =
    ((if frontend_instruct cosyvoice
      then [GrWarning ("You are using Cross-lingual Cloning mode. "
              ++ model_dir ++ " model does not support this mode. Please use iic/CosyVoice-300M model");
            Yield placeholder]
      else [])
     ++ (if nonempty instruct_text
         then [GrInfo "You are using Cross-lingual Cloning mode. Instruct text will be ignored"]
         else [])
     ++ [GrInfo "You are using Cross-lingual Cloning mode. Please ensure synthesis text and prompt text are in different languages"]
     ++ (if sample_rate <? prompt_sr
         then [GrWarning ("Prompt audio sample rate " ++ py_str sample_rate
                          ++ " is lower than " ++ py_str prompt_sr);
               Yield placeholder]
         else [])
     ++ [LoggingInfo "Received cross-lingual inference request";
         SetAllRandomSeed seed;
         Inference (CallCrossLingual tts_text prompt_speech_16k stream speed)]
     ++ map (fun i => Yield (target_sr, i)) (fst out))%list
  /\ outcome r = Returned tt
  /\ final r = snd out.
Proof.
  intros Hinfo Hload Hpost r out. subst r out. unfold placeholder.
  unfold_handler. cbn. rewrite Hinfo. cbn.
  destruct (frontend_instruct cosyvoice); cbn.
  all: destruct (nonempty instruct_text); cbn.
  all: destruct (sample_rate <? prompt_sr); cbn.
  all: rewrite Hload; cbn; rewrite Hpost; case_run.
  all: repeat split.
Qed.

(** X4. Without prompt audio the cloning modes never reach the engine: after
    the warnings and their placeholders, reading the sample rate of the
    missing file raises, before any seeding or synthesis, and the random
    state is left as it was. *)
Theorem missing_prompt_audio_never_synthesizes
    (tts_text sft_dropdown prompt_text instruct_text : string)
    (seed : Z) (stream : bool) (speed : Q) (s : R) :
  (let r := generate_audio tts_text "3s Rapid Cloning" sft_dropdown prompt_text
              None None instruct_text seed stream speed s in
   trace r = [GrWarning "Prompt audio is empty. Did you forget to input prompt audio?";
              Yield placeholder]
   /\ outcome r = Raised TorchaudioInfoError
   /\ final r = s)
  /\ (let r := generate_audio tts_text "Cross-lingual Cloning" sft_dropdown
                 prompt_text None None instruct_text seed stream speed s in
      trace r =
        ((if frontend_instruct cosyvoice
          then [GrWarning ("You are using Cross-lingual Cloning mode. "
                  ++ model_dir ++ " model does not support this mode. Please use iic/CosyVoice-300M model");
                Yield placeholder]
          else [])
         ++ (if nonempty instruct_text
             then [GrInfo "You are using Cross-lingual Cloning mode. Instruct text will be ignored"]
             else [])
         ++ [GrWarning "You are using Cross-lingual Cloning mode. Please provide prompt audio";
             Yield placeholder;
             GrInfo "You are using Cross-lingual Cloning mode. Please ensure synthesis text and prompt text are in different languages";
             GrWarning "Prompt audio is empty. Did you forget to input prompt audio?";
             Yield placeholder])%list
      /\ calls (trace r) = []
      /\ outcome r = Raised TorchaudioInfoError
      /\ final r = s).
Proof.
  unfold placeholder. split.
  - unfold_handler. cbn. repeat split.
  - unfold_handler. cbn.
    destruct (frontend_instruct cosyvoice); cbn.
    all: destruct (nonempty instruct_text); cbn.
    all: repeat split.
Qed.

(** X5. A mode outside [inference_mode_list] passes no check at all: the run
    consists of the log line, the seeding, one call of [inference_instruct]
    and its relayed segments, even when the engine lacks the instruct
    capability or the instruct text is empty. *)
Theorem unknown_mode_skips_checks
    (tts_text mode_checkbox_group sft_dropdown prompt_text : string)
    (prompt_wav_upload prompt_wav_record : option string)
    (instruct_text : string) (seed : Z) (stream : bool) (speed : Q) (s : R) :
  ~ In mode_checkbox_group inference_mode_list ->
  let r := generate_audio tts_text mode_checkbox_group sft_dropdown prompt_text
             prompt_wav_upload prompt_wav_record instruct_text seed stream
             speed s in
  let out := inference_instruct cosyvoice tts_text sft_dropdown instruct_text
               stream speed (seeded seed) in
  trace r =
    (LoggingInfo "Received instruct inference request"
     :: SetAllRandomSeed seed
     :: Inference (CallInstruct tts_text sft_dropdown instruct_text stream speed)
     :: map (fun i => Yield (target_sr, i)) (fst out))
  /\ outcome r = Returned tt
  /\ final r = snd out.
Proof.
  intros Hout r out. subst r out.
  assert (H1 : String.eqb mode_checkbox_group "Pre-trained Voice" = false).
  { apply String.eqb_neq. intros ->. apply Hout. simpl. tauto. }
  assert (H2 : String.eqb mode_checkbox_group "3s Rapid Cloning" = false).
  { apply String.eqb_neq. intros ->. apply Hout. simpl. tauto. }
  assert (H3 : String.eqb mode_checkbox_group "Cross-lingual Cloning" = false).
  { apply String.eqb_neq. intros ->. apply Hout. simpl. tauto. }
  assert (H4 : String.eqb mode_checkbox_group "Natural Language Control" = false).
  { apply String.eqb_neq. intros ->. apply Hout. simpl. tauto. }
  unfold_handler. unfold str_in. rewrite H1, H2, H3, H4. case_run.
  repeat split.
Qed.
End CloningModes.

(** ** Warnings and placeholders *)

Lemma answered_app (t1 t2 : list event) :
  answered t1 -> answered t2 -> answered (t1 ++ t2).
Proof.
  intros H1 H2. revert H1.
  enough (H : (answered t1 -> answered (t1 ++ t2))
              /\ (forall e, answered (e :: t1) -> answered ((e :: t1) ++ t2)))
    by exact (proj1 H).
  induction t1 as [|a t1 [IH1 IH2]].
  - split; [intros _; exact H2|].
    intros e He. destruct e; simpl in *; try contradiction. exact H2.
  - split; [apply IH2|].
    intros e He. destruct e; try contradiction.
    + destruct a; try contradiction.
      destruct He as [Hc Ht]. split; [exact Hc | apply IH1, Ht].
    + apply IH2. exact He.
Qed.

Lemma answered_yields (t : list event) :
  answered t -> yields t = repeat placeholder (warnings t).
Proof.
  enough (H : (answered t -> yields t = repeat placeholder (warnings t))
              /\ (forall e, answered (e :: t) ->
                            yields (e :: t)
                            = repeat placeholder (warnings (e :: t))))
    by exact (proj1 H).
  induction t as [|a t [IH1 IH2]].
  - split; [reflexivity|].
    intros e He. destruct e; simpl in *; try contradiction. reflexivity.
  - split; [apply IH2|].
    intros e He. destruct e; try contradiction.
    + destruct a; try contradiction.
      destruct He as [-> Ht]. simpl. f_equal. apply IH1, Ht.
    + apply IH2. exact He.
Qed.

Lemma warnings_app (t1 t2 : list event) :
  warnings (t1 ++ t2) = (warnings t1 + warnings t2)%nat.
Proof.
  induction t1 as [|e t1 IH]; simpl; [reflexivity|].
  destruct e; simpl; rewrite IH; reflexivity.
Qed.

Lemma warnings_relayed (sr : Z) (segments : list waveform) :
  warnings (map (fun i => Yield (sr, i)) segments) = O.
Proof.
  induction segments as [|w l IH]; simpl; [reflexivity | exact IH].
Qed.

Section StatelessLaws.
Context {S : Type}.

Lemma stateless_ret {A} (a : A) : stateless (@ret S A a).
Proof. intros s; reflexivity. Qed.

Lemma stateless_emit (e : event) : stateless (@emit S e).
Proof. intros s; reflexivity. Qed.

Lemma stateless_raise {A} (e : exn) : stateless (@raise S A e).
Proof. intros s; reflexivity. Qed.

Lemma stateless_orRaise {A} (e : exn) (o : option A) :
  stateless (@orRaise S A e o).
Proof. destruct o; [apply stateless_ret | apply stateless_raise]. Qed.

Lemma stateless_bind {A B} (m : Gen S A) (k : A -> Gen S B) :
  stateless m -> (forall a, stateless (k a)) -> stateless (bind m k).
Proof.
  intros Hm Hk s. unfold bind. specialize (Hm s).
  destruct (m s) as [t s1 [a|e]]; simpl in *; [|exact Hm].
  specialize (Hk a s1). destruct (k a s1); simpl in *. congruence.
Qed.

Lemma stateless_when (b : bool) (m : Gen S unit) :
  stateless m -> stateless (when b m).
Proof. destruct b; [trivial | intros _; apply stateless_ret]. Qed.
End StatelessLaws.

Section HandlerInvariants.
Variable R : Type.
Variable seeded : Z -> R.
Variable cosyvoice : CosyVoice R.
Variable model_dir : string.
Variable torchaudio_info : string -> option Z.
Variable load_wav : string -> Z -> option waveform.
Variable trim : waveform -> Z -> Z -> Z -> waveform.

Local Abbreviation generate_audio :=
  (generate_audio R seeded cosyvoice model_dir torchaudio_info load_wav trim).
Local Abbreviation checks :=
  (generate_audio_checks R cosyvoice model_dir torchaudio_info).
Local Abbreviation dispatch :=
  (generate_audio_dispatch R seeded cosyvoice load_wav trim).

Lemma answered_warning (msg : string) :
  always answered
    (bind (emit (GrWarning msg)) (fun _ : unit => yield_default R)).
Proof. intros s. simpl. split; [reflexivity | exact I]. Qed.

Lemma answered_checks (mode_checkbox_group prompt_text : string)
    (prompt_wav : option string) (instruct_text : string) :
  always answered
    (checks mode_checkbox_group prompt_text prompt_wav instruct_text).
Proof.
  unfold generate_audio_checks, info_sample_rate.
  repeat match goal with
         | |- always answered (bind (emit (GrWarning _)) _) =>
             apply answered_warning
         | |- always answered (bind _ _) =>
             apply always_bind; [exact answered_app| |]
         | |- always answered (when _ _) => apply always_when; [exact I|]
         | |- always answered (match ?o with Some _ => _ | None => _ end) =>
             destruct o
         | |- always answered (emit (GrInfo _)) => apply always_emit; exact I
         | |- always answered (orRaise _ _) => apply always_orRaise; exact I
         | |- always answered (raise _) => apply always_raise; exact I
         | |- forall _, _ => intro
         end.
Qed.

Lemma stateless_checks (mode_checkbox_group prompt_text : string)
    (prompt_wav : option string) (instruct_text : string) :
  stateless (checks mode_checkbox_group prompt_text prompt_wav instruct_text).
Proof.
  unfold generate_audio_checks, yield_default, info_sample_rate.
  repeat match goal with
         | |- stateless (bind _ _) => apply stateless_bind
         | |- stateless (when _ _) => apply stateless_when
         | |- stateless (match ?o with Some _ => _ | None => _ end) =>
             destruct o
         | |- stateless (emit _) => apply stateless_emit
         | |- stateless (orRaise _ _) => apply stateless_orRaise
         | |- stateless (raise _) => apply stateless_raise
         | |- forall _, _ => intro
         end.
Qed.

(** The dispatch either raises right after its log line, with the random
    state untouched, or seeds, calls the engine once and relays. *)
Lemma dispatch_outcome (tts_text mode_checkbox_group sft_dropdown
    prompt_text : string) (prompt_wav : option string) (instruct_text : string)
    (seed : Z) (stream : bool) (speed : Q) (s : R) :
  let r := dispatch tts_text mode_checkbox_group sft_dropdown prompt_text
             prompt_wav instruct_text seed stream speed s in
  (exists e msg,
      outcome r = Raised e /\ trace r = [LoggingInfo msg] /\ final r = s)
  \/ (exists msg call segments,
         outcome r = Returned tt /\
         trace r = LoggingInfo msg :: SetAllRandomSeed seed :: Inference call
                   :: map (fun i => Yield (target_sr, i)) segments).
Proof.
  unfold generate_audio_dispatch, prompt_speech_of, set_all_random_seed,
    relay, orRaise, bind, emit, ret, raise.
  repeat match goal with |- context [if ?b then _ else _] => destruct b end;
    cbn.
  all: try (destruct prompt_wav as [path|]; cbn;
            [destruct (load_wav path prompt_sr) as [speech|]; cbn;
             [destruct (postprocess trim speech) as [conditioned|]; cbn|]|]).
  all: repeat match goal with
         | |- context [let (_, _) := ?x in _] =>
             lazymatch type of x with prod _ _ => destruct x end
         end; cbn.
  all: first [ right; do 3 eexists; split; reflexivity
             | left; do 2 eexists; repeat split ].
Qed.

(** A run of the handler is a run of the checks followed, when they return,
    by a run of the dispatch from the same random state. *)
Lemma handler_run (tts_text mode_checkbox_group sft_dropdown prompt_text : string)
    (prompt_wav_upload prompt_wav_record : option string)
    (instruct_text : string) (seed : Z) (stream : bool) (speed : Q) (s : R) :
  let prompt_wav := prompt_wav_of prompt_wav_upload prompt_wav_record in
  let r := generate_audio tts_text mode_checkbox_group sft_dropdown prompt_text
             prompt_wav_upload prompt_wav_record instruct_text seed stream
             speed s in
  let c := checks mode_checkbox_group prompt_text prompt_wav instruct_text s in
  let d := dispatch tts_text mode_checkbox_group sft_dropdown prompt_text
             prompt_wav instruct_text seed stream speed s in
  (exists e, outcome r = Raised e /\ trace r = trace c /\ final r = s)
  \/ (trace r = (trace c ++ trace d)%list /\ outcome r = outcome d
      /\ final r = final d).
Proof.
  intros prompt_wav r c d. subst r c d.
  unfold generate_audio, generate_audio_from, bind.
  pose proof (stateless_checks mode_checkbox_group prompt_text prompt_wav
                instruct_text s) as Hs.
  fold prompt_wav.
  destruct (checks mode_checkbox_group prompt_text prompt_wav instruct_text s)
    as [t s1 [[]|e]]; simpl in *; subst s1.
  - right.
    destruct (dispatch tts_text mode_checkbox_group sft_dropdown prompt_text
                prompt_wav instruct_text seed stream speed s); simpl.
    repeat split.
  - left. exists e. repeat split.
Qed.


(** X7. A run that ends in an exception has neither seeded nor called the
    engine, and leaves the process-wide random state exactly as it found
    it: an unreadable prompt file never disturbs the random source. *)
Theorem raised_run_leaves_random_state
    (tts_text mode_checkbox_group sft_dropdown prompt_text : string)
    (prompt_wav_upload prompt_wav_record : option string)
    (instruct_text : string) (seed : Z) (stream : bool) (speed : Q) (s : R)
    (e : exn) :
  let r := generate_audio tts_text mode_checkbox_group sft_dropdown prompt_text
             prompt_wav_upload prompt_wav_record instruct_text seed stream
             speed s in
  outcome r = Raised e ->
  final r = s /\ quiet (trace r) /\ calls (trace r) = [].
Proof.
  intros r Hraised.
  pose proof (quiet_checks R cosyvoice model_dir torchaudio_info
                mode_checkbox_group prompt_text
                (prompt_wav_of prompt_wav_upload prompt_wav_record)
                instruct_text s) as Hq.
  assert (H : final r = s /\ quiet (trace r)).
  { destruct (handler_run tts_text mode_checkbox_group sft_dropdown prompt_text
                prompt_wav_upload prompt_wav_record instruct_text seed stream
                speed s) as [(e' & _ & Ht & Hf) | (Ht & Ho & Hf)];
      fold r in Ht, Hf.
    - rewrite Ht, Hf. split; [reflexivity | exact Hq].
    - fold r in Ho. rewrite Ht, Hf.
      destruct (dispatch_outcome tts_text mode_checkbox_group sft_dropdown
                  prompt_text
                  (prompt_wav_of prompt_wav_upload prompt_wav_record)
                  instruct_text seed stream speed s)
        as [(e' & msg & _ & Hd & Hs) | (msg & call & segments & Hret & _)].
      + rewrite Hd, Hs. split; [reflexivity|].
        apply quiet_app; [exact Hq | reflexivity].
      + rewrite Ho, Hret in Hraised. discriminate. }
  destruct H as [Hf Hquiet]. repeat split; trivial.
  apply quiet_calls, Hquiet.
Qed.
End HandlerInvariants.

(** ** What the engine receives as prompt *)

Section ConditionedPrompt.
Variable R : Type.
Variable seeded : Z -> R.
Variable cosyvoice : CosyVoice R.
Variable model_dir : string.
Variable torchaudio_info : string -> option Z.
Variable load_wav : string -> Z -> option waveform.
Variable trim : waveform -> Z -> Z -> Z -> waveform.

Local Abbreviation generate_audio :=
  (generate_audio R seeded cosyvoice model_dir torchaudio_info load_wav trim).
Local Abbreviation dispatch :=
  (generate_audio_dispatch R seeded cosyvoice load_wav trim).

(** Every sample that [postprocess] returns lies within [-0.8, 0.8]. *)
Lemma postprocess_bounded (speech out : waveform) :
  postprocess trim speech = Some out ->
  forall y, In y out -> (Qabs y <= max_val)%Q.
Proof.
  unfold postprocess, postprocess_with. rewrite pad_count.
  destruct (trim speech 60 440 220) as [|x l]; simpl abs_max; cbv iota beta;
    [discriminate|].
  set (peak := abs_max_of x l).
  intros Hout y Hy. injection Hout as <-.
  apply in_app_or in Hy. destruct Hy as [Hy|Hy].
  - destruct (Qgtb peak max_val) eqn:Egt.
    + apply Qgtb_true in Egt.
      assert (Hp : (0 < peak)%Q).
      { eapply Qlt_trans; [|exact Egt]. reflexivity. }
      pose proof (abs_max_of_rescaled x l Hp) as Hmax. fold peak in Hmax.
      rewrite <- Hmax.
      apply (abs_max_of_ge (x / peak * max_val)%Q
               (map (fun x0 => (x0 / peak * max_val)%Q) l) y).
      exact Hy.
    + apply Qgtb_false in Egt.
      eapply Qle_trans; [apply (abs_max_of_ge x l y Hy) | exact Egt].
  - apply repeat_spec in Hy. subst y. discriminate.
Qed.

(** What [postprocess] returns ends with the 4410 zeros of the padding. *)
Lemma postprocess_padded (speech out : waveform) :
  postprocess trim speech = Some out ->
  exists body, out = (body ++ zeros 4410)%list.
Proof.
  unfold postprocess, postprocess_with. rewrite pad_count.
  destruct (abs_max (trim speech 60 440 220)); [|discriminate].
  intros H. injection H as <-. eexists. reflexivity.
Qed.

(** The prompt that the dispatch hands to the engine is an output of
    [postprocess]. *)
Lemma dispatch_prompt_is_postprocessed (tts_text mode_checkbox_group
    sft_dropdown prompt_text : string) (prompt_wav : option string)
    (instruct_text : string) (seed : Z) (stream : bool) (speed : Q) (s : R)
    (call : inference_call) (prompt_speech_16k : waveform) :
  In call (calls (trace (dispatch tts_text mode_checkbox_group sft_dropdown
                           prompt_text prompt_wav instruct_text seed stream
                           speed s))) ->
  prompt_speech_arg call = Some prompt_speech_16k ->
  exists speech, postprocess trim speech = Some prompt_speech_16k.
Proof.
  unfold generate_audio_dispatch, prompt_speech_of, set_all_random_seed,
    relay, orRaise, bind, emit, ret, raise.
  repeat match goal with |- context [if ?b then _ else _] => destruct b end;
    cbn.
  all: try (destruct prompt_wav as [path|]; cbn;
            [destruct (load_wav path prompt_sr) as [speech|]; cbn;
             [destruct (postprocess trim speech) as [conditioned|] eqn:Epost;
              cbn|]|]).
  all: repeat match goal with
         | |- context [let (_, _) := ?x in _] =>
             lazymatch type of x with prod _ _ => destruct x end
         end; cbn.
  all: rewrite ?calls_relayed.
  all: intros Hin Harg; simpl in Hin.
  all: try contradiction.
  all: destruct Hin as [<-|[]]; simpl in Harg; try discriminate.
  all: injection Harg as <-; exists speech; exact Epost.
Qed.

(** X9. Whatever the request, a prompt waveform that reaches
    [inference_zero_shot] or [inference_cross_lingual] has been conditioned:
    all its samples lie within [-0.8, 0.8] and it ends with the 4410 zeros of
    the padding. *)
Theorem engine_prompt_is_conditioned
    (tts_text mode_checkbox_group sft_dropdown prompt_text : string)
    (prompt_wav_upload prompt_wav_record : option string)
    (instruct_text : string) (seed : Z) (stream : bool) (speed : Q) (s : R)
    (call : inference_call) (prompt_speech_16k : waveform) :
  In call (calls (trace (generate_audio tts_text mode_checkbox_group
                           sft_dropdown prompt_text prompt_wav_upload
                           prompt_wav_record instruct_text seed stream speed
                           s))) ->
  prompt_speech_arg call = Some prompt_speech_16k ->
  (forall y, In y prompt_speech_16k -> (Qabs y <= max_val)%Q)
  /\ exists body, prompt_speech_16k = (body ++ zeros 4410)%list.
Proof.
  intros Hin Harg.
  pose proof (quiet_calls _
                (quiet_checks R cosyvoice model_dir torchaudio_info
                   mode_checkbox_group prompt_text
                   (prompt_wav_of prompt_wav_upload prompt_wav_record)
                   instruct_text s)) as Hq.
  assert (Hd : In call (calls (trace (dispatch tts_text mode_checkbox_group
                 sft_dropdown prompt_text
                 (prompt_wav_of prompt_wav_upload prompt_wav_record)
                 instruct_text seed stream speed s)))).
  { destruct (handler_run R seeded cosyvoice model_dir torchaudio_info load_wav
                trim tts_text mode_checkbox_group sft_dropdown prompt_text
                prompt_wav_upload prompt_wav_record instruct_text seed stream
                speed s) as [(e & _ & Ht & _) | (Ht & _ & _)];
      rewrite Ht in Hin.
    - rewrite Hq in Hin. contradiction.
    - rewrite calls_app, Hq in Hin. exact Hin. }
  destruct (dispatch_prompt_is_postprocessed _ _ _ _ _ _ _ _ _ _ _ _ Hd Harg)
    as [speech Hpost].
  split.
  - apply (postprocess_bounded speech), Hpost.
  - apply (postprocess_padded speech), Hpost.
Qed.
End ConditionedPrompt.

(** ** Conditioning a conditioned prompt *)

Section PostprocessTwice.
Variable trim : waveform -> Z -> Z -> Z -> waveform.
(** [librosa.effects.trim] returns a slice [y[start:end]] of its input: every
    sample it returns is a sample of the input. *)
Hypothesis trim_keeps :
  forall speech top_db frame_length hop_length y,
    In y (trim speech top_db frame_length hop_length) -> In y speech.

(** X8. Conditioning an already conditioned signal never rescales it again:
    since trimming only selects samples, [postprocess] applied to an output
    of [postprocess] returns the trimmed signal with its amplitudes unchanged,
    followed by 4410 zeros (or fails when trimming leaves nothing). *)
Theorem postprocess_twice_never_rescales (speech out : waveform) :
  postprocess trim speech = Some out ->
  postprocess trim out =
    match trim out 60 440 220 with
    | [] => None
    | trimmed => Some (trimmed ++ zeros 4410)%list
    end.
Proof.
  intros Hout.
  pose proof (postprocess_bounded trim speech out Hout) as Hb.
  unfold postprocess, postprocess_with. rewrite pad_count.
  pose proof (trim_keeps out 60 440 220) as Hkeep.
  destruct (trim out 60 440 220) as [|x l]; simpl abs_max; cbv iota beta;
    [reflexivity|].
  assert (Hle : (abs_max_of x l <= max_val)%Q).
  { apply abs_max_of_le. intros y Hy. apply Hb, Hkeep, Hy. }
  apply Qgtb_false in Hle. rewrite Hle. reflexivity.
Qed.
End PostprocessTwice.

(** ** The further properties on concrete requests *)

Lemma rapid_cloning_trace_witness :
  exists prompt_speech_16k,
    Fixture.torchaudio_info "prompt_8k.wav" = Some 8000
    /\ Fixture.load_wav "prompt_8k.wav" prompt_sr = Some [0; 0.5; -2; 1; 0]%Q
    /\ postprocess Fixture.trim [0; 0.5; -2; 1; 0]%Q = Some prompt_speech_16k
    /\ let r := Fixture.generate_audio false "hello" "3s Rapid Cloning" "spk"
                  "hi there" (Some "prompt_8k.wav") None "" 42 false 1%Q 0 in
       yields (trace r) =
         (placeholder
          :: map (pair target_sr)
               (fst (inference_zero_shot (Fixture.engine false) "hello"
                       "hi there" prompt_speech_16k false 1%Q
                       (Fixture.seeded 42))))%list
       /\ outcome r = Returned tt.
Proof.
  eexists. split; [reflexivity|]. split; [reflexivity|].
  split; [reflexivity|].
  pose proof (rapid_cloning_trace Z Fixture.seeded (Fixture.engine false)
                Fixture.model_dir Fixture.torchaudio_info Fixture.load_wav
                Fixture.trim "hello" "spk" "hi there" "prompt_8k.wav" None ""
                42 false 1%Q 0 8000 [0; 0.5; -2; 1; 0]%Q _
                eq_refl eq_refl eq_refl) as [Ht [Ho _]].
  split; [|exact Ho].
  unfold Fixture.generate_audio. rewrite Ht. reflexivity.
Defined.

Lemma cross_lingual_trace_witness :
  exists prompt_speech_16k,
    Fixture.torchaudio_info "prompt_16k.wav" = Some 16000
    /\ Fixture.load_wav "prompt_16k.wav" prompt_sr = Some [0; 0.5; -2; 1; 0]%Q
    /\ postprocess Fixture.trim [0; 0.5; -2; 1; 0]%Q = Some prompt_speech_16k
    /\ let r := Fixture.generate_audio false "hello" "Cross-lingual Cloning"
                  "spk" "" (Some "prompt_16k.wav") None "" 42 false 1%Q 0 in
       yields (trace r) =
         map (pair target_sr)
           (fst (inference_cross_lingual (Fixture.engine false) "hello"
                   prompt_speech_16k false 1%Q (Fixture.seeded 42)))
       /\ outcome r = Returned tt.
Proof.
  eexists. split; [reflexivity|]. split; [reflexivity|].
  split; [reflexivity|].
  pose proof (cross_lingual_trace Z Fixture.seeded (Fixture.engine false)
                Fixture.model_dir Fixture.torchaudio_info Fixture.load_wav
                Fixture.trim "hello" "spk" "" "prompt_16k.wav" None ""
                42 false 1%Q 0 16000 [0; 0.5; -2; 1; 0]%Q _
                eq_refl eq_refl eq_refl) as [Ht [Ho _]].
  split; [|exact Ho].
  unfold Fixture.generate_audio. rewrite Ht. reflexivity.
Defined.

Lemma unknown_mode_skips_checks_witness :
  ~ In "Voice Conversion" inference_mode_list
  /\ let r := Fixture.generate_audio false "hello" "Voice Conversion" "spk" ""
                None None "" 7 false 1%Q 0 in
     trace r =
       [LoggingInfo "Received instruct inference request";
        SetAllRandomSeed 7;
        Inference (CallInstruct "hello" "spk" "" false 1%Q);
        Yield (target_sr, Fixture.tone "spk" 7)]
     /\ outcome r = Returned tt.
Proof.
  assert (H : ~ In "Voice Conversion" inference_mode_list).
  { simpl. intros [H|[H|[H|[H|[]]]]]; discriminate. }
  split; [exact H|].
  pose proof (unknown_mode_skips_checks Z Fixture.seeded (Fixture.engine false)
                Fixture.model_dir Fixture.torchaudio_info Fixture.load_wav
                Fixture.trim "hello" "Voice Conversion" "spk" "" None None ""
                7 false 1%Q 0 H) as [Ht [Ho _]].
  split; [exact Ht | exact Ho].
Defined.

Lemma raised_run_leaves_random_state_witness :
  let r := Fixture.generate_audio false "hello" "3s Rapid Cloning" "spk"
             "hi there" (Some "missing.wav") None "" 42 false 1%Q 5 in
  outcome r = Raised TorchaudioInfoError
  /\ final r = 5 /\ quiet (trace r) /\ calls (trace r) = [].
Proof.
  split; [reflexivity|].
  exact (raised_run_leaves_random_state Z Fixture.seeded (Fixture.engine false)
           Fixture.model_dir Fixture.torchaudio_info Fixture.load_wav
           Fixture.trim "hello" "3s Rapid Cloning" "spk" "hi there"
           (Some "missing.wav") None "" 42 false 1%Q 5 TorchaudioInfoError
           eq_refl).
Defined.

Lemma fixture_drop_zeros_keeps (w : waveform) (y : Q) :
  In y (Fixture.drop_zeros w) -> In y w.
Proof.
  induction w as [|x w IH]; simpl; [trivial|].
  destruct (Qeq_bool x 0); [intros H; right; apply IH, H | trivial].
Defined.

Lemma fixture_trim_keeps (speech : waveform) (top_db frame_length hop_length : Z)
    (y : Q) :
  In y (Fixture.trim speech top_db frame_length hop_length) -> In y speech.
Proof.
  unfold Fixture.trim. intros H.
  apply in_rev in H. apply fixture_drop_zeros_keeps in H.
  apply in_rev in H. apply fixture_drop_zeros_keeps in H. exact H.
Defined.

Lemma postprocess_twice_never_rescales_witness :
  exists out,
    postprocess Fixture.trim [0; 0.5; -2; 1; 0]%Q = Some out
    /\ postprocess Fixture.trim out =
         match Fixture.trim out 60 440 220 with
         | [] => None
         | trimmed => Some (trimmed ++ zeros 4410)%list
         end.
Proof.
  eexists. split; [reflexivity|].
  apply (postprocess_twice_never_rescales Fixture.trim fixture_trim_keeps
           [0; 0.5; -2; 1; 0]%Q).
  reflexivity.
Defined.

Lemma engine_prompt_is_conditioned_witness :
  exists call prompt_speech_16k,
    let r := Fixture.generate_audio false "hello" "3s Rapid Cloning" "spk"
               "hi there" (Some "prompt_16k.wav") None "" 42 false 1%Q 0 in
    In call (calls (trace r))
    /\ prompt_speech_arg call = Some prompt_speech_16k
    /\ (forall y, In y prompt_speech_16k -> (Qabs y <= max_val)%Q)
    /\ exists body, prompt_speech_16k = (body ++ zeros 4410)%list.
Proof.
  eexists. eexists.
  assert (Hin : In (CallZeroShot "hello" "hi there"
                      ([0.5 / 2 * 0.8; -2 / 2 * 0.8; 1 / 2 * 0.8]%Q
                       ++ zeros 4410)%list false 1%Q)
                  (calls (trace (Fixture.generate_audio false "hello"
                                   "3s Rapid Cloning" "spk" "hi there"
                                   (Some "prompt_16k.wav") None "" 42 false
                                   1%Q 0)))).
  { left. reflexivity. }
  split; [exact Hin|]. split; [reflexivity|].
  exact (engine_prompt_is_conditioned Z Fixture.seeded (Fixture.engine false)
           Fixture.model_dir Fixture.torchaudio_info Fixture.load_wav
           Fixture.trim "hello" "3s Rapid Cloning" "spk" "hi there"
           (Some "prompt_16k.wav") None "" 42 false 1%Q 0 _ _ Hin eq_refl).
Defined.
